(** * Delegated routing over HTTP: the server handlers and the content-router
    client adapter of boxo's [routing/http], embedded in Rocq.

    The development follows the two Go packages:
    - [Module server]: [findProviders], [findProvidersJSON],
      [findProvidersNDJSON], [getIPNSRecord], [putIPNSRecord], [writeJSONResult]
      and [writeErr];
    - [Module contentrouter]: [readProviderResponses] and [FindProvidersAsync].

    Go values are modelled as the code has them: a [string] is a Rocq [string],
    a [[]byte] is a [list byte], an [int] is a [Z] wrapped to 64 bits, an
    [error] is a value with an [Error] message, [http.Header] is a finite map
    from header names to lists of values.  What the handlers call outside the
    two packages (go-cid, boxo/ipns, mime, xxhash, drjson) is kept abstract in
    the record [Externals]; the backend is a record of functions.

    Not modelled: logging (a logged failure leaves no trace in the response),
    the [context.Context] of a request, and the route table of [mux].  An
    iterator is the finite sequence of items it delivers; a handler is a
    function from the response writer it is given to the writer it leaves,
    together with the backend calls it made. *)

From Stdlib Require Import ZArith Lia Bool Ascii.
From Stdlib.Strings Require Import Byte.
From Stdlib Require String.
From stdpp Require Import base option list gmap strings.

Local Open Scope Z_scope.

(** ** Go's [error] values *)

(** [io.EOF] is told apart from every other error by identity
    ([err == io.EOF] in [io.ReadAll]); all other errors only matter through
    their message. *)
Inductive error : Type :=
| io_EOF
| errorString (msg : string).

Definition Error (e : error) : string :=
  match e with
  | io_EOF => "EOF"
  | errorString msg => msg
  end.

(** [errors.New(msg)]. *)
Definition errors_New (msg : string) : error := errorString msg.

(** [fmt.Errorf(prefix + "%w", err)]: the message is the prefix followed by the
    wrapped error's message. *)
Definition Errorf_w (prefix : string) (err : error) : error :=
  errorString (prefix +:+ Error err).

(** A Go call returning [(T, error)] is a sum [T + error]: the code below
    always tests [err != nil] first and never reads the value on failure. *)

(** ** 64-bit [int] arithmetic and number formatting ([strconv], [fmt]) *)

(** Two's-complement wrap-around of Go's [int] on a 64-bit platform. *)
Definition wrap_int (z : Z) : Z := (z + 2 ^ 63) mod 2 ^ 64 - 2 ^ 63.

(** [i++] on an [int]. *)
Definition int_incr (i : Z) : Z := wrap_int (i + 1).

(** [const digits = "0123456789abcdefghijklmnopqrstuvwxyz"] of [strconv]. *)
Definition digits : string := "0123456789abcdefghijklmnopqrstuvwxyz".

Definition digit (d : Z) : ascii :=
  match String.get (Z.to_nat d) digits with
  | Some c => c
  | None => "0"%char
  end.

(** The loop of [strconv.formatBits]:
    [for u >= b { i--; a[i] = digits[u%b]; u /= b }; i--; a[i] = digits[u]].
    A [uint64] has at most 64 digits in any base, which bounds the loop. *)
Fixpoint formatBits (fuel : nat) (u b : Z) (a : string) : string :=
  match fuel with
  | O => String (digit u) a
  | S fuel' =>
      if b <=? u
      then formatBits fuel' (u / b) b (String (digit (u mod b)) a)
      else String (digit u) a
  end.

(** [strconv.FormatUint(u, base)]. *)
Definition FormatUint (u : Z) (base : Z) : string := formatBits 64 u base "".

(** [strconv.FormatInt(i, 10)], which is what the verb [%d] prints for an
    [int]. *)
Definition FormatInt10 (i : Z) : string :=
  if i <? 0 then String "-"%char (FormatUint (- i) 10) else FormatUint i 10.

(** ** [strings] *)

(** [strings.Contains(s, substr)]. *)
Fixpoint Contains (s substr : string) : bool :=
  String.prefix substr s ||
  match s with
  | EmptyString => false
  | String _ s' => Contains s' substr
  end.

(** [strings.Split(s, sep)] for a one-byte separator: the fields between the
    separators, the empty string giving one empty field.  [cur] holds the bytes
    of the field being read, last byte first. *)
Fixpoint Split_from (s : string) (sep : ascii) (cur : string) : list string :=
  match s with
  | EmptyString => [String.rev cur]
  | String c s' =>
      if Ascii.eqb c sep
      then String.rev cur :: Split_from s' sep EmptyString
      else Split_from s' sep (String c cur)
  end.

Definition Split (s : string) (sep : ascii) : list string :=
  Split_from s sep EmptyString.

(** ** [net/http]: headers and the response writer *)

(** [http.Header], a [map[string][]string].  The handlers only use canonical
    header names. *)
Abbreviation Header := (gmap string (list string)).

Definition Header_Values (h : Header) (key : string) : list string :=
  default [] (h !! key).

Definition Header_Get (h : Header) (key : string) : string :=
  match h !! key with
  | Some (v :: _) => v
  | _ => ""
  end.

Definition Header_Set (h : Header) (key value : string) : Header :=
  <[key := [value]]> h.

Definition Header_Add (h : Header) (key value : string) : Header :=
  <[key := Header_Values h key ++ [value]]> h.

Definition StatusOK : Z := 200.
Definition StatusBadRequest : Z := 400.
Definition StatusNotAcceptable : Z := 406.
Definition StatusInternalServerError : Z := 500.

(** The state of an [http.ResponseWriter] as a handler drives it:
    - [rw_header]: the map returned by [w.Header()];
    - [rw_committed]: the status line and the headers sent with it, once
      [WriteHeader] ran (explicitly, or through the first [Write]);
    - [rw_body]: the body bytes accepted so far;
    - [rw_flushes]: the body length at each [Flush];
    - [rw_flusher]: whether the writer implements [http.Flusher];
    - [rw_budget]: how many more [Write] calls the connection accepts before
      it fails ([None]: it never fails). *)
Record ResponseWriter : Type := mkResponseWriter {
  rw_header : Header;
  rw_committed : option (Z * Header);
  rw_body : list byte;
  rw_flushes : list nat;
  rw_flusher : bool;
  rw_budget : option nat
}.

(** The writer the HTTP server hands to a handler. *)
Definition newResponseWriter (flusher : bool) (budget : option nat) : ResponseWriter :=
  {| rw_header := ∅; rw_committed := None; rw_body := []; rw_flushes := [];
     rw_flusher := flusher; rw_budget := budget |}.

(** [w.Header().Set(key, value)] and [w.Header().Add(key, value)]. *)
Definition w_Header_Set (w : ResponseWriter) (key value : string) : ResponseWriter :=
  {| rw_header := Header_Set (rw_header w) key value; rw_committed := rw_committed w;
     rw_body := rw_body w; rw_flushes := rw_flushes w;
     rw_flusher := rw_flusher w; rw_budget := rw_budget w |}.

Definition w_Header_Add (w : ResponseWriter) (key value : string) : ResponseWriter :=
  {| rw_header := Header_Add (rw_header w) key value; rw_committed := rw_committed w;
     rw_body := rw_body w; rw_flushes := rw_flushes w;
     rw_flusher := rw_flusher w; rw_budget := rw_budget w |}.

(** [w.WriteHeader(statusCode)]: the first call commits the status and the
    current headers; a later call is superfluous and changes nothing. *)
Definition WriteHeader (w : ResponseWriter) (statusCode : Z) : ResponseWriter :=
  match rw_committed w with
  | Some _ => w
  | None =>
      {| rw_header := rw_header w; rw_committed := Some (statusCode, rw_header w);
         rw_body := rw_body w; rw_flushes := rw_flushes w;
         rw_flusher := rw_flusher w; rw_budget := rw_budget w |}
  end.

(** [w.Write(b)]: commits [200] when nothing is committed yet, then appends
    [b] to the body, or fails when the connection is gone. *)
Definition Write (w : ResponseWriter) (b : list byte) : ResponseWriter * option error :=
  let w := WriteHeader w StatusOK in
  match rw_budget w with
  | Some O => (w, Some (errorString "write: broken pipe"))
  | budget =>
      ({| rw_header := rw_header w; rw_committed := rw_committed w;
          rw_body := rw_body w ++ b; rw_flushes := rw_flushes w;
          rw_flusher := rw_flusher w; rw_budget := Nat.pred <$> budget |}, None)
  end.

(** [if f, ok := w.(http.Flusher); ok { f.Flush() }]. *)
Definition Flush (w : ResponseWriter) : ResponseWriter :=
  if rw_flusher w then
    let w := WriteHeader w StatusOK in
    {| rw_header := rw_header w; rw_committed := rw_committed w;
       rw_body := rw_body w; rw_flushes := rw_flushes w ++ [length (rw_body w)];
       rw_flusher := rw_flusher w; rw_budget := rw_budget w |}
  else w.

(** The status line the client gets: the committed one, or [200] when the
    handler returned without committing any. *)
Definition statusCode (w : ResponseWriter) : Z :=
  match rw_committed w with
  | Some (code, _) => code
  | None => StatusOK
  end.

(** The headers the client gets. *)
Definition sentHeader (w : ResponseWriter) : Header :=
  match rw_committed w with
  | Some (_, h) => h
  | None => rw_header w
  end.

(** ** [io]: readers, [io.LimitReader] and [io.ReadAll] *)

(** The [io.Reader] interface.  [Read r n] is [r.Read(p)] with [len(p) = n]:
    the bytes stored in [p], the error, and the reader afterwards.
    [remaining] bounds the number of reads that can still return bytes; it
    only serves to bound the loop of [ReadAll]. *)
Class Reader (R : Type) : Type := {
  Read : R -> nat -> list byte * option error * R;
  remaining : R -> nat
}.

(** A request body on the wire: the bytes still to come, and how the stream
    ends after them, with [io.EOF] ([None]) or with a transport error.  A read
    returns bytes, or the end of the stream once no byte is left. *)
Record Body : Type := mkBody {
  body_data : list byte;
  body_end : option error
}.

Definition Body_Read (r : Body) (n : nat) : list byte * option error * Body :=
  match n, body_data r with
  | O, _ => ([], None, r)
  | _, [] => ([], Some (default io_EOF (body_end r)), r)
  | _, data => (take n data, None, mkBody (drop n data) (body_end r))
  end.

#[export] Instance Body_Reader : Reader Body :=
  {| Read := Body_Read; remaining := fun r => length (body_data r) |}.

(** [io.LimitedReader]. *)
Record LimitedReader (R : Type) : Type := mkLimitedReader {
  lr_R : R;
  lr_N : Z
}.
Arguments mkLimitedReader {R} _ _.
Arguments lr_R {R} _.
Arguments lr_N {R} _.

(** [func LimitReader(r Reader, n int64) Reader]. *)
Definition LimitReader {R : Type} (r : R) (n : Z) : LimitedReader R :=
  mkLimitedReader r n.

(** [func (l *LimitedReader) Read(p []byte) (n int, err error)]:
    [if l.N <= 0 { return 0, EOF }],
    [if int64(len(p)) > l.N { p = p[0:l.N] }],
    [n, err = l.R.Read(p); l.N -= int64(n)]. *)
Definition LimitedReader_Read {R : Type} `{Reader R} (l : LimitedReader R) (n : nat)
  : list byte * option error * LimitedReader R :=
  if lr_N l <=? 0 then ([], Some io_EOF, l)
  else
    let n := if lr_N l <? Z.of_nat n then Z.to_nat (lr_N l) else n in
    let '(p, err, r) := Read (lr_R l) n in
    (p, err, mkLimitedReader r (lr_N l - Z.of_nat (length p))).

#[export] Instance LimitedReader_Reader {R : Type} `{Reader R} : Reader (LimitedReader R) :=
  {| Read := LimitedReader_Read; remaining := fun l => remaining (lr_R l) |}.

(** The loop of [io.ReadAll]: read into the free space of the buffer, append,
    stop at the first error, which is dropped when it is [io.EOF].  The space
    offered to a read is the 512 bytes the buffer starts with. *)
Fixpoint ReadAll_loop {R : Type} `{Reader R} (fuel : nat) (r : R) (b : list byte)
  : list byte * option error :=
  match fuel with
  | O => (b, None)
  | S fuel' =>
      let '(p, err, r) := Read r 512 in
      let b := b ++ p in
      match err with
      | Some io_EOF => (b, None)
      | Some e => (b, Some e)
      | None => ReadAll_loop fuel' r b
      end
  end.

(** [func ReadAll(r Reader) ([]byte, error)]. *)
Definition ReadAll {R : Type} `{Reader R} (r : R) : list byte * option error :=
  ReadAll_loop (S (remaining r)) r [].

(** ** The data model shared by the two packages *)

(** [cid.Cid], a struct around the binary form of the identifier. *)
Record Cid : Type := mkCid { cid_str : string }.

(** [ipns.Name], a struct around the multihash of the name. *)
Record Name : Type := mkName { name_multihash : string }.

(** [peer.ID], a string type, and [multiaddr.Multiaddr] in its binary form. *)
Definition PeerID : Type := string.
Definition multiaddr_Multiaddr : Type := list byte.

(** [types.Multiaddr], a struct that embeds a [multiaddr.Multiaddr]. *)
Record types_Multiaddr : Type := mkMultiaddr { Multiaddr : multiaddr_Multiaddr }.

(** Modelled from the spec: the declarations of package [types] are not among
    the sources.  A discovery record is "a polymorphic result variant tagged by
    a schema field; one concrete variant carries a peer identity and
    zero-or-more multiaddresses", and "records with unrecognized schema are
    still valid, opaque payloads".  [ID] is a pointer in the code
    ([*result.ID]), so it may be nil. *)
Inductive Record_ : Type :=
| PeerRecord (Schema : string) (ID : option PeerID)
             (Addrs : list types_Multiaddr) (Protocols : list string)
| UnknownRecord (Schema : string) (Bytes : list byte).

(** [v.GetSchema()]. *)
Definition GetSchema (v : Record_) : string :=
  match v with
  | PeerRecord Schema _ _ _ => Schema
  | UnknownRecord Schema _ => Schema
  end.

(** [iter.Result[T]], a struct [{ Val T; Err error }]: the code tests
    [res.Err != nil] first and reads [res.Val] only when there is no error. *)
Inductive Result (T : Type) : Type :=
| ResultVal (Val : T)
| ResultErr (Err : error).
Arguments ResultVal {T} _.
Arguments ResultErr {T} _.

(** [iter.ResultIter[T]] as the finite sequence of items that [Next]/[Val]
    deliver before [Next] returns false. *)
Definition ResultIter (T : Type) : Type := list (Result T).

(** [peer.AddrInfo]. *)
Record AddrInfo : Type := mkAddrInfo {
  AddrInfo_ID : PeerID;
  AddrInfo_Addrs : list multiaddr_Multiaddr
}.

(** [jsontypes.ProvidersResponse]. *)
Record ProvidersResponse : Type := mkProvidersResponse {
  Providers : list Record_
}.

(** The values handed to [drjson.MarshalJSONBytes(val any)]. *)
Inductive any : Type :=
| any_Record (v : Record_)
| any_ProvidersResponse (v : ProvidersResponse).

(** What the two packages import and the sources do not contain. *)
Record Externals : Type := mkExternals {
  (** [cid.Decode] *)
  cid_Decode : string -> Cid + error;
  (** [ipns.Record], [ipns.MaxRecordSize], [ipns.NameFromCid],
      [ipns.MarshalRecord], [ipns.UnmarshalRecord], [ipns.ValidateWithName],
      the [TTL] method of a record as a [time.Duration] in nanoseconds *)
  ipns_Record : Type;
  MaxRecordSize : Z;
  NameFromCid : Cid -> Name + error;
  MarshalRecord : ipns_Record -> list byte + error;
  UnmarshalRecord : list byte -> ipns_Record + error;
  ValidateWithName : ipns_Record -> Name -> option error;
  Record_TTL : ipns_Record -> Z + error;
  (** [int(d.Seconds())] for a [time.Duration] (a float conversion) *)
  Duration_Seconds : Z -> Z;
  (** [mime.ParseMediaType]: the media type and the error *)
  ParseMediaType : string -> string * option error;
  (** [xxhash.Sum64], whose result is a [uint64] *)
  Sum64 : list byte -> Z;
  Sum64_uint64 : forall b, 0 <= Sum64 b < 2 ^ 64;
  (** [drjson.MarshalJSONBytes] *)
  MarshalJSONBytes : any -> list byte + error;
  (** [types.SchemaPeer] *)
  SchemaPeer : string
}.

(** * Package [server] *)

Module server.

Definition mediaTypeJSON : string := "application/json".
Definition mediaTypeNDJSON : string := "application/x-ndjson".
Definition mediaTypeWildcard : string := "*/*".
Definition mediaTypeIPNSRecord : string := "application/vnd.ipfs.ipns-record".

Definition DefaultRecordsLimit : Z := 20.
Definition DefaultStreamingRecordsLimit : Z := 0.

Section Server.

Variable E : Externals.

(** The [ContentRouter] interface: what each method returns for its arguments
    during the request at hand. *)
Record ContentRouter : Type := mkContentRouter {
  FindProviders : Cid -> Z -> ResultIter Record_ + error;
  FindIPNSRecord : Name -> ipns_Record E + error;
  ProvideIPNSRecord : Name -> ipns_Record E -> option error
}.

(** The calls a handler makes on the backend, in order; [Call_Close] is the
    [Close] of the iterator that [FindProviders] returned. *)
Inductive BackendCall : Type :=
| Call_FindProviders (key : Cid) (limit : Z)
| Call_FindIPNSRecord (name : Name)
| Call_ProvideIPNSRecord (name : Name) (record : ipns_Record E)
| Call_Close.

Record server : Type := mkServer {
  svc : ContentRouter;
  disableNDJSON : bool;
  recordsLimit : Z;
  streamingRecordsLimit : Z
}.

Definition Option_ : Type := server -> server.

Definition WithStreamingResultsDisabled : Option_ :=
  fun s => mkServer (svc s) true (recordsLimit s) (streamingRecordsLimit s).

Definition WithRecordsLimit (limit : Z) : Option_ :=
  fun s => mkServer (svc s) (disableNDJSON s) limit (streamingRecordsLimit s).

Definition WithStreamingRecordsLimit (limit : Z) : Option_ :=
  fun s => mkServer (svc s) (disableNDJSON s) (recordsLimit s) limit.

(** The server that [Handler(svc, opts...)] builds before it registers the
    three routes. *)
Definition Handler (svc : ContentRouter) (opts : list Option_) : server :=
  fold_left (fun server opt => opt server) opts
            (mkServer svc false DefaultRecordsLimit DefaultStreamingRecordsLimit).

(** What a handler reads of an [*http.Request]: the [{cid}] variable of the
    route, the headers and the body. *)
Record Request : Type := mkRequest {
  vars_cid : string;
  req_Header : Header;
  req_Body : Body
}.

(** [writeErr]: the status, then the cause's message cut to 1024 bytes.  A
    failed write is only logged. *)
Definition writeErr (w : ResponseWriter) (method : string) (statusCode : Z)
                    (cause : error) : ResponseWriter :=
  let w := WriteHeader w statusCode in
  let causeStr := Error cause in
  let causeStr :=
    if (1024 <? String.length causeStr)%nat then String.substring 0 1024 causeStr
    else causeStr in
  fst (Write w (String.list_byte_of_string causeStr)).

(** [io.Copy(w, bytes.NewBuffer(b))]: the buffer writes itself to [w] in one
    [Write], and writes nothing when it is empty. *)
Definition io_Copy (w : ResponseWriter) (b : list byte) : ResponseWriter * option error :=
  match b with
  | [] => (w, None)
  | _ => Write w b
  end.

Definition writeJSONResult (w : ResponseWriter) (method : string) (val : any)
  : ResponseWriter :=
  let w := w_Header_Add w "Content-Type" mediaTypeJSON in
  match MarshalJSONBytes E val with
  | inr err =>
      writeErr w method StatusInternalServerError (Errorf_w "marshaling response: " err)
  | inl b => fst (io_Copy w b)
  end.

(** The loop of [findProvidersJSON]: [inl providers] when the iterator is
    exhausted, [inr (i, err)] at the first item that carries an error. *)
Fixpoint findProvidersJSON_loop (provIter : ResultIter Record_)
         (providers : list Record_) (i : Z) : list Record_ + Z * error :=
  match provIter with
  | [] => inl providers
  | ResultErr err :: _ => inr (i, err)
  | ResultVal v :: provIter' =>
      findProvidersJSON_loop provIter' (providers ++ [v]) (int_incr i)
  end.

Definition findProvidersJSON (w : ResponseWriter) (provIter : ResultIter Record_)
  : ResponseWriter * list BackendCall :=
  match findProvidersJSON_loop provIter [] 0 with
  | inr (i, err) =>
      (writeErr w "FindProviders" StatusInternalServerError
         (errorString ("delegate error on result " +:+ FormatInt10 i +:+ ": " +:+ Error err)),
       [Call_Close])
  | inl providers =>
      (writeJSONResult w "FindProviders"
         (any_ProvidersResponse (mkProvidersResponse providers)),
       [Call_Close])
  end.

(** The loop of [findProvidersNDJSON]: every [return] leaves the stream as it
    is (the failure is only logged). *)
Fixpoint findProvidersNDJSON_loop (w : ResponseWriter) (provIter : ResultIter Record_)
  : ResponseWriter :=
  match provIter with
  | [] => w
  | ResultErr _ :: _ => w
  | ResultVal v :: provIter' =>
      match MarshalJSONBytes E (any_Record v) with
      | inr _ => w
      | inl b =>
          match Write w b with
          | (w, Some _) => w
          | (w, None) =>
              match Write w [x0a] with
              | (w, Some _) => w
              | (w, None) => findProvidersNDJSON_loop (Flush w) provIter'
              end
          end
      end
  end.

Definition findProvidersNDJSON (w : ResponseWriter) (provIter : ResultIter Record_)
  : ResponseWriter * list BackendCall :=
  let w := w_Header_Set w "Content-Type" mediaTypeNDJSON in
  let w := WriteHeader w StatusOK in
  (findProvidersNDJSON_loop w provIter, [Call_Close]).

(** The inner loop of [findProviders] over the media types of one [Accept]
    header: the flags [(supportsJSON, supportsNDJSON)], or the parse error. *)
Fixpoint findProviders_accepts (accepts : list string) (supports : bool * bool)
  : bool * bool + error :=
  match accepts with
  | [] => inl supports
  | accept :: accepts' =>
      match ParseMediaType E accept with
      | (_, Some err) => inr err
      | (mediaType, None) =>
          let supports :=
            if String.eqb mediaType mediaTypeJSON || String.eqb mediaType mediaTypeWildcard
            then (true, snd supports)
            else if String.eqb mediaType mediaTypeNDJSON
            then (fst supports, true)
            else supports in
          findProviders_accepts accepts' supports
      end
  end.

(** The outer loop, over the [Accept] headers. *)
Fixpoint findProviders_acceptHeaders (acceptHeaders : list string) (supports : bool * bool)
  : bool * bool + error :=
  match acceptHeaders with
  | [] => inl supports
  | acceptHeader :: acceptHeaders' =>
      match findProviders_accepts (Split acceptHeader ",") supports with
      | inr err => inr err
      | inl supports => findProviders_acceptHeaders acceptHeaders' supports
      end
  end.

(** A handler function of [findProviders], [handlerFunc] in the code. *)
Definition handlerFunc_t : Type :=
  ResponseWriter -> ResultIter Record_ -> ResponseWriter * list BackendCall.

Definition findProviders (s : server) (w : ResponseWriter) (httpReq : Request)
  : ResponseWriter * list BackendCall :=
  match cid_Decode E (vars_cid httpReq) with
  | inr err =>
      (writeErr w "FindProviders" StatusBadRequest (Errorf_w "unable to parse CID: " err), [])
  | inl cid =>
      let acceptHeaders := Header_Values (req_Header httpReq) "Accept" in
      let negotiated : handlerFunc_t * Z + error :=
        if (length acceptHeaders =? 0)%nat then inl (findProvidersJSON, recordsLimit s)
        else
          match findProviders_acceptHeaders acceptHeaders (false, false) with
          | inr err => inr (Errorf_w "unable to parse Accept header: " err)
          | inl (supportsJSON, supportsNDJSON) =>
              if supportsNDJSON && negb (disableNDJSON s)
              then inl (findProvidersNDJSON, streamingRecordsLimit s)
              else if supportsJSON
              then inl (findProvidersJSON, recordsLimit s)
              else inr (errors_New "no supported content types")
          end in
      match negotiated with
      | inr err => (writeErr w "FindProviders" StatusBadRequest err, [])
      | inl (handlerFunc, recordsLimit) =>
          match FindProviders (svc s) cid recordsLimit with
          | inr err =>
              (writeErr w "FindProviders" StatusInternalServerError
                 (Errorf_w "delegate error: " err),
               [Call_FindProviders cid recordsLimit])
          | inl provIter =>
              let '(w, calls) := handlerFunc w provIter in
              (w, Call_FindProviders cid recordsLimit :: calls)
          end
      end
  end.

Definition getIPNSRecord (s : server) (w : ResponseWriter) (r : Request)
  : ResponseWriter * list BackendCall :=
  if negb (Contains (Header_Get (req_Header r) "Accept") mediaTypeIPNSRecord) then
    (writeErr w "GetIPNSRecord" StatusNotAcceptable
       (errors_New "content type in 'Accept' header is missing or not supported"), [])
  else
  match cid_Decode E (vars_cid r) with
  | inr err =>
      (writeErr w "GetIPNSRecord" StatusBadRequest (Errorf_w "unable to parse CID: " err), [])
  | inl cid =>
  match NameFromCid E cid with
  | inr err =>
      (writeErr w "GetIPNSRecord" StatusBadRequest (Errorf_w "peer ID CID is not valid: " err), [])
  | inl name =>
  match FindIPNSRecord (svc s) name with
  | inr err =>
      (writeErr w "GetIPNSRecord" StatusInternalServerError (Errorf_w "delegate error: " err),
       [Call_FindIPNSRecord name])
  | inl record =>
  match MarshalRecord E record with
  | inr err =>
      (writeErr w "GetIPNSRecord" StatusInternalServerError err, [Call_FindIPNSRecord name])
  | inl rawRecord =>
      let w :=
        match Record_TTL E record with
        | inl ttl =>
            w_Header_Set w "Cache-Control" ("max-age=" +:+ FormatInt10 (Duration_Seconds E ttl))
        | inr _ => w_Header_Set w "Cache-Control" "max-age=60"
        end in
      let recordEtag := FormatUint (Sum64 E rawRecord) 32 in
      let w := w_Header_Set w "Etag" recordEtag in
      let w := w_Header_Set w "Content-Type" mediaTypeIPNSRecord in
      (fst (Write w rawRecord), [Call_FindIPNSRecord name])
  end end end end.

Definition putIPNSRecord (s : server) (w : ResponseWriter) (r : Request)
  : ResponseWriter * list BackendCall :=
  if negb (Contains (Header_Get (req_Header r) "Content-Type") mediaTypeIPNSRecord) then
    (writeErr w "PutIPNSRecord" StatusNotAcceptable
       (errors_New "content type in 'Content-Type' header is missing or not supported"), [])
  else
  match cid_Decode E (vars_cid r) with
  | inr err =>
      (writeErr w "PutIPNSRecord" StatusBadRequest (Errorf_w "unable to parse CID: " err), [])
  | inl cid =>
  match NameFromCid E cid with
  | inr err =>
      (writeErr w "PutIPNSRecord" StatusBadRequest (Errorf_w "peer ID CID is not valid: " err), [])
  | inl name =>
  match ReadAll (LimitReader (req_Body r) (MaxRecordSize E)) with
  | (_, Some err) =>
      (writeErr w "PutIPNSRecord" StatusBadRequest (Errorf_w "provided record is too long: " err), [])
  | (rawRecord, None) =>
  match UnmarshalRecord E rawRecord with
  | inr err =>
      (writeErr w "PutIPNSRecord" StatusBadRequest (Errorf_w "provided record is invalid: " err), [])
  | inl record =>
  match ValidateWithName E record name with
  | Some err =>
      (writeErr w "PutIPNSRecord" StatusBadRequest (Errorf_w "provided record is invalid: " err), [])
  | None =>
  match ProvideIPNSRecord (svc s) name record with
  | Some err =>
      (writeErr w "PutIPNSRecord" StatusInternalServerError (Errorf_w "delegate error: " err),
       [Call_ProvideIPNSRecord name record])
  | None =>
      (WriteHeader w StatusOK, [Call_ProvideIPNSRecord name record])
  end end end end end end.

End Server.

End server.

(** * Package [contentrouter] *)

Module contentrouter.

Section ContentRouter.

Variable E : Externals.

(** The [Client] interface: [FindProviders(ctx, key)] takes a key and nothing
    else. *)
Record Client : Type := mkClient {
  FindProviders : Cid -> ResultIter Record_ + error
}.

(** The calls made on the client. *)
Inductive ClientCall : Type :=
| Call_FindProviders (key : Cid).

Record contentRouter : Type := mkContentRouter {
  client : Client;
  maxProvideConcurrency : Z;
  maxProvideBatchSize : Z
}.

Definition option_ : Type := contentRouter -> contentRouter.

Definition WithMaxProvideConcurrency (max : Z) : option_ :=
  fun c => mkContentRouter (client c) max (maxProvideBatchSize c).

Definition WithMaxProvideBatchSize (max : Z) : option_ :=
  fun c => mkContentRouter (client c) (maxProvideConcurrency c) max.

Definition NewContentRoutingClient (c : Client) (opts : list option_) : contentRouter :=
  fold_left (fun cr opt => opt cr) opts (mkContentRouter c 5 100).

(** [routing.ErrNotSupported]. *)
Definition ErrNotSupported : error := errorString "routing: operation or key not supported".

Definition Provide (c : contentRouter) (key : Cid) (announce : bool) : option error :=
  Some ErrNotSupported.

Definition Ready (c : contentRouter) : bool := true.

(** What the worker does to the channel and to the iterator, in order.  The
    channel is unbuffered: the consumer is taken to receive every value sent,
    so that what the channel receives is what the worker sends. *)
Inductive Op : Type :=
| Op_Send (v : AddrInfo)
| Op_IterClose
| Op_ChanClose.

(** The loop of [readProviderResponses]: the values sent on [ch], and whether
    the loop ended in a panic (the dereference [*result.ID] of a nil [ID]).
    An item with an error, a record of another schema and a record that is no
    [*types.PeerRecord] are logged and skipped. *)
Fixpoint readProviderResponses_loop (iter : ResultIter Record_) : list AddrInfo * bool :=
  match iter with
  | [] => ([], false)
  | ResultErr _ :: iter' => readProviderResponses_loop iter'
  | ResultVal v :: iter' =>
      if String.eqb (GetSchema v) (SchemaPeer E) then
        match v with
        | PeerRecord _ ID Addrs _ =>
            let addrs := map Multiaddr Addrs in
            match ID with
            | None => ([], true)
            | Some id =>
                let '(sent, panicked) := readProviderResponses_loop iter' in
                (mkAddrInfo id addrs :: sent, panicked)
            end
        | _ => readProviderResponses_loop iter'
        end
      else readProviderResponses_loop iter'
  end.

(** [readProviderResponses(iter, ch)]: the two deferred calls run when the
    function leaves, last deferred first, also when it panics. *)
Definition readProviderResponses (iter : ResultIter Record_) : list Op * bool :=
  let '(sent, panicked) := readProviderResponses_loop iter in
  (map Op_Send sent ++ [Op_IterClose; Op_ChanClose], panicked).

(** What a call of [FindProvidersAsync] amounts to: the calls made on the
    client, the operations on the returned channel (by the function itself
    when the lookup fails, by the worker it starts otherwise), and whether the
    worker panicked. *)
Record AsyncResult : Type := mkAsyncResult {
  async_calls : list ClientCall;
  async_chan : list Op;
  async_panicked : bool
}.

Definition FindProvidersAsync (c : contentRouter) (key : Cid) (numResults : Z)
  : AsyncResult :=
  match FindProviders (client c) key with
  | inr err => mkAsyncResult [Call_FindProviders key] [Op_ChanClose] false
  | inl resultsIter =>
      let '(ops, panicked) := readProviderResponses resultsIter in
      mkAsyncResult [Call_FindProviders key] ops panicked
  end.

End ContentRouter.

End contentrouter.

(** * Reference definitions used in the statements *)

(** The body [writeErr] sends for a cause: its message, cut to 1024 bytes. *)
Definition errorBody (cause : error) : list byte :=
  String.list_byte_of_string
    (if (1024 <? String.length (Error cause))%nat
     then String.substring 0 1024 (Error cause)
     else Error cause).

(** Whether the connection still accepts a [Write]. *)
Definition accepts (budget : option nat) : bool :=
  match budget with
  | Some O => false
  | _ => true
  end.

(** An error read from a stream, with [io.EOF] standing for a normal end. *)
Definition dropEOF (e : option error) : option error :=
  match e with
  | Some io_EOF => None
  | e => e
  end.

(** The little-endian encoding of [i] on [n] bytes. *)
Fixpoint le_bytes (n : nat) (i : Z) : list byte :=
  match n with
  | O => []
  | S n' => byte_of_ascii (ascii_of_N (Z.to_N (i mod 256))) :: le_bytes n' (i / 256)
  end.

(** The number a little-endian byte string encodes. *)
Fixpoint le_value (b : list byte) : Z :=
  match b with
  | [] => 0
  | x :: b' => Z.of_N (N_of_ascii (ascii_of_byte x)) + 256 * le_value b'
  end.

(** The value of a digit of [strconv]'s alphabet, and of a string of digits
    in base [b] continuing the number [acc]. *)
Definition digit_value (c : ascii) : Z :=
  let n := Z.of_N (N_of_ascii c) in
  if (48 <=? n) && (n <=? 57) then n - 48
  else if (97 <=? n) && (n <=? 122) then n - 87
  else 0.

Fixpoint digits_value (b : Z) (s : string) (acc : Z) : Z :=
  match s with
  | EmptyString => acc
  | String c s' => digits_value b s' (acc * b + digit_value c)
  end.

(** The entity tag of canonical record bytes, [recordEtag] in [getIPNSRecord]. *)
Definition recordEtag (E : Externals) (rawRecord : list byte) : string :=
  FormatUint (Sum64 E rawRecord) 32.

(** The connection of a response takes [m] more writes. *)
Definition takes (budget : option nat) (m : nat) : Prop :=
  forall n : nat, budget = Some n -> (m <= n)%nat.

Module negotiation.

Section Negotiation.

Variable E : Externals.

(** The outcome of content negotiation as the specification words it: the
    bulk strategy or the streaming strategy, each with the limit passed to the
    backend, or a client error. *)
Inductive outcome : Type :=
| Bulk (limit : Z)
| Streaming (limit : Z)
| BadRequest (cause : error).

(** Every media-type token of every [Accept] header, in order. *)
Definition tokens (acceptHeaders : list string) : list string :=
  concat (map (fun acceptHeader => Split acceptHeader ",") acceptHeaders).

(** The error of the first malformed token, when there is one. *)
Fixpoint malformed (toks : list string) : option error :=
  match toks with
  | [] => None
  | tok :: toks' =>
      match snd (ParseMediaType E tok) with
      | Some err => Some err
      | None => malformed toks'
      end
  end.

(** Some listed token has the media type [mediaType]. *)
Definition lists (toks : list string) (mediaType : string) : bool :=
  existsb (fun tok => String.eqb (fst (ParseMediaType E tok)) mediaType) toks.

(** The negotiation rules, in the order the specification gives them. *)
Definition negotiate (disableNDJSON : bool) (recordsLimit streamingRecordsLimit : Z)
           (acceptHeaders : list string) : outcome :=
  match acceptHeaders with
  | [] => Bulk recordsLimit
  | _ =>
      let toks := tokens acceptHeaders in
      match malformed toks with
      | Some err => BadRequest (Errorf_w "unable to parse Accept header: " err)
      | None =>
          if lists toks server.mediaTypeNDJSON && negb disableNDJSON
          then Streaming streamingRecordsLimit
          else if lists toks server.mediaTypeJSON || lists toks server.mediaTypeWildcard
          then Bulk recordsLimit
          else BadRequest (errors_New "no supported content types")
      end
  end.

(** What the discovery handler does once the outcome is fixed: a client error
    is answered at once; otherwise the backend is asked with the limit of the
    strategy and the strategy drains the sequence (a failed lookup is a
    server error). *)
Definition respond (s : server.server E) (w : ResponseWriter) (cid : Cid) (o : outcome)
  : ResponseWriter * list (server.BackendCall E) :=
  let run (strategy : server.handlerFunc_t E) (limit : Z) :=
    match server.FindProviders E (server.svc E s) cid limit with
    | inr err =>
        (server.writeErr w "FindProviders" StatusInternalServerError
           (Errorf_w "delegate error: " err),
         [server.Call_FindProviders E cid limit])
    | inl provIter =>
        (fst (strategy w provIter),
         server.Call_FindProviders E cid limit :: snd (strategy w provIter))
    end in
  match o with
  | BadRequest cause => (server.writeErr w "FindProviders" StatusBadRequest cause, [])
  | Bulk limit => run (server.findProvidersJSON E) limit
  | Streaming limit => run (server.findProvidersNDJSON E) limit
  end.

End Negotiation.

End negotiation.

(** The peer-address value the adapter forwards for an item of the sequence:
    the item carries no error, its record is a peer record tagged with the
    peer schema, and the record has a peer identity. *)
Definition peerAddrInfo (E : Externals) (res : Result Record_) : option AddrInfo :=
  match res with
  | ResultVal (PeerRecord Schema (Some id) Addrs _) =>
      if String.eqb Schema (SchemaPeer E) then Some (mkAddrInfo id (map Multiaddr Addrs))
      else None
  | _ => None
  end.

(** A peer record tagged with the peer schema whose identity pointer is nil. *)
Definition nilPeer (E : Externals) (res : Result Record_) : bool :=
  match res with
  | ResultVal (PeerRecord Schema None _ _) => String.eqb Schema (SchemaPeer E)
  | _ => false
  end.

(** * An instance of the externals

    Small stand-ins for the imported packages, so that the handlers can be run
    on concrete requests. *)

Module sample.

(** Keys are accepted in multibase form: base32 ([b...]) or base36 ([k...]). *)
Definition decode (s : string) : Cid + error :=
  if String.prefix "b" s || String.prefix "k" s then inl (mkCid s)
  else inr (errorString "invalid cid: selected encoding not supported").

(** Only base36 keys name a peer. *)
Definition nameFromCid (c : Cid) : Name + error :=
  if String.prefix "k" (cid_str c) then inl (mkName (cid_str c))
  else inr (errorString "invalid IPNS name").

(** A record is its wire form: the byte [0x0a], the name it is filed under,
    the byte [0x00], then the payload. *)
Definition unmarshal (b : list byte) : list byte + error :=
  match b with
  | x0a :: _ => inl b
  | _ => inr (errorString "record is malformed")
  end.

Fixpoint has_prefix (p b : list byte) : bool :=
  match p, b with
  | [], _ => true
  | x :: p', y :: b' => Byte.eqb x y && has_prefix p' b'
  | _, _ => false
  end.

Definition validate (record : list byte) (name : Name) : option error :=
  if has_prefix (String.list_byte_of_string (name_multihash name) ++ [x00]) (tail record)
  then None
  else Some (errorString "record does not match name").

(** The media type is the token up to the first [;], without blanks; it needs
    a slash. *)
Fixpoint mediaTypeOf (s : string) : string :=
  match s with
  | EmptyString => EmptyString
  | String c s' =>
      if Ascii.eqb c ";" then EmptyString
      else if Ascii.eqb c " " then mediaTypeOf s'
      else String c (mediaTypeOf s')
  end.

Definition parseMediaType (v : string) : string * option error :=
  let mediaType := mediaTypeOf v in
  if Contains mediaType "/" then (mediaType, None)
  else ("", Some (errorString "mime: expected slash after first token")).

(** A 64-bit checksum. *)
Definition sum64 (b : list byte) : Z :=
  fold_left (fun h x => h * 31 + Z.of_N (Byte.to_N x)) b 7 mod 2 ^ 64.

(** A rendering of a record and of a response, one object per record. *)
Definition renderRecord (v : Record_) : string :=
  match v with
  | PeerRecord Schema ID _ _ => "{Schema:" +:+ Schema +:+ ",ID:" +:+ default "null" ID +:+ "}"
  | UnknownRecord Schema _ => "{Schema:" +:+ Schema +:+ "}"
  end.

Definition marshalJSON (val : any) : list byte + error :=
  match val with
  | any_Record v => inl (String.list_byte_of_string (renderRecord v))
  | any_ProvidersResponse r =>
      inl (String.list_byte_of_string
             ("{Providers:[" +:+ String.concat "," (map renderRecord (Providers r)) +:+ "]}"))
  end.

Definition externals : Externals :=
  {| cid_Decode := decode;
     ipns_Record := list byte;
     MaxRecordSize := 10240;
     NameFromCid := nameFromCid;
     MarshalRecord := inl;
     UnmarshalRecord := unmarshal;
     ValidateWithName := validate;
     Record_TTL := fun _ => inl (3600 * 10 ^ 9);
     Duration_Seconds := fun d => Z.quot d (10 ^ 9);
     ParseMediaType := parseMediaType;
     Sum64 := sum64;
     Sum64_uint64 := fun b => Z.mod_pos_bound _ (2 ^ 64) eq_refl;
     MarshalJSONBytes := marshalJSON;
     SchemaPeer := "peer" |}.

(** A backend that knows one provider list and stores every record. *)
Definition peerA : Record_ := PeerRecord "peer" (Some "12D3KooWA") [mkMultiaddr [x04; x7f]] [].
Definition peerB : Record_ := PeerRecord "peer" (Some "12D3KooWB") [] ["transport-bitswap"].
Definition other : Record_ := UnknownRecord "bitswap" [x01].

Definition backend : server.ContentRouter externals :=
  server.mkContentRouter externals
    (fun key limit => inl [ResultVal peerA; ResultVal other; ResultVal peerB])
    (fun name => inl (x0a :: String.list_byte_of_string (name_multihash name) ++ [x00; x2a]))
    (fun name record => None).

(** A backend whose sequence fails at its third item. *)
Definition failing : server.ContentRouter externals :=
  server.mkContentRouter externals
    (fun key limit =>
       inl [ResultVal peerA; ResultVal other; ResultErr (errorString "lookup timed out");
            ResultVal peerB])
    (fun name => inr (errorString "not found"))
    (fun name record => Some (errorString "store is read-only")).

Definition request (cid : string) (header : list (string * list string)) (body : list byte)
  : server.Request :=
  server.mkRequest cid (list_to_map header) (mkBody body None).

(** The headers of a record request. *)
Definition ipnsHeaders : list (string * list string) :=
  [("Accept", ["application/vnd.ipfs.ipns-record"]);
   ("Content-Type", ["application/vnd.ipfs.ipns-record"])].

(** A record filed under the name [k51], padded to [n] bytes. *)
Definition paddedRecord (n : nat) : list byte :=
  take n (x0a :: String.list_byte_of_string "k51" ++ x00 :: repeat x2a n).

End sample.

(** * Further reference definitions *)

(** The lines the streaming strategy has to write for a sequence: the
    marshalled values up to the first item with an error or the first value
    that does not marshal. *)
Fixpoint ndjsonLines (E : Externals) (provIter : ResultIter Record_) : list (list byte) :=
  match provIter with
  | ResultVal v :: provIter' =>
      match MarshalJSONBytes E (any_Record v) with
      | inl b => b :: ndjsonLines E provIter'
      | inr _ => []
      end
  | _ => []
  end.

(** Lines as a line-delimited body. *)
Definition ndjsonBody (lines : list (list byte)) : list byte :=
  concat (map (fun b => b ++ [x0a]) lines).

(** The body lengths at the end of each line, for a body that is [start]
    bytes long before the first line. *)
Fixpoint lineEnds (start : nat) (lines : list (list byte)) : list nat :=
  match lines with
  | [] => []
  | b :: lines' =>
      (start + length b + 1)%nat :: lineEnds (start + length b + 1)%nat lines'
  end.

Module config.

(** The options of [Handler], as data. *)
Inductive setting : Type :=
| StreamingResultsDisabled
| RecordsLimit (limit : Z)
| StreamingRecordsLimit (limit : Z).

Definition option_of (E : Externals) (o : setting) : server.Option_ E :=
  match o with
  | StreamingResultsDisabled => server.WithStreamingResultsDisabled E
  | RecordsLimit limit => server.WithRecordsLimit E limit
  | StreamingRecordsLimit limit => server.WithStreamingRecordsLimit E limit
  end.

Definition disables (o : setting) : bool :=
  match o with
  | StreamingResultsDisabled => true
  | _ => false
  end.

Definition recordsLimit_of (o : setting) : option Z :=
  match o with
  | RecordsLimit limit => Some limit
  | _ => None
  end.

Definition streamingRecordsLimit_of (o : setting) : option Z :=
  match o with
  | StreamingRecordsLimit limit => Some limit
  | _ => None
  end.

(** The options of [NewContentRoutingClient], as data. *)
Inductive budget : Type :=
| MaxProvideConcurrency (max : Z)
| MaxProvideBatchSize (max : Z).

Definition client_option_of (o : budget) : contentrouter.option_ :=
  match o with
  | MaxProvideConcurrency max => contentrouter.WithMaxProvideConcurrency max
  | MaxProvideBatchSize max => contentrouter.WithMaxProvideBatchSize max
  end.

Definition concurrency_of (o : budget) : option Z :=
  match o with
  | MaxProvideConcurrency max => Some max
  | _ => None
  end.

Definition batchSize_of (o : budget) : option Z :=
  match o with
  | MaxProvideBatchSize max => Some max
  | _ => None
  end.

End config.

(** An instance whose JSON marshalling and whose record TTL fail, the rest
    being as in [sample]. *)
Module faulty.

Definition externals : Externals :=
  {| cid_Decode := sample.decode;
     ipns_Record := list byte;
     MaxRecordSize := 10240;
     NameFromCid := sample.nameFromCid;
     MarshalRecord := inl;
     UnmarshalRecord := sample.unmarshal;
     ValidateWithName := sample.validate;
     Record_TTL := fun _ => inr (errorString "record has no TTL");
     Duration_Seconds := fun d => Z.quot d (10 ^ 9);
     ParseMediaType := sample.parseMediaType;
     Sum64 := sample.sum64;
     Sum64_uint64 := fun b => Z.mod_pos_bound _ (2 ^ 64) eq_refl;
     MarshalJSONBytes := fun _ => inr (errorString "json: unsupported value");
     SchemaPeer := "peer" |}.

Definition backend : server.ContentRouter externals :=
  server.mkContentRouter externals
    (fun key limit => inl [ResultVal sample.peerA; ResultVal sample.other])
    (fun name => inl (x0a :: String.list_byte_of_string (name_multihash name) ++ [x00; x2a]))
    (fun name record => Some (errorString "store is read-only")).

End faulty.

(** * Facts about the modelled library functions *)

Example FormatUint_base32 : FormatUint 1025 32 = "101".
Proof. reflexivity. Qed.

Example FormatInt10_negative : FormatInt10 (-120) = "-120".
Proof. reflexivity. Qed.

Example Split_commas : Split "a, b,,c" "," = ["a"; " b"; ""; "c"].
Proof. reflexivity. Qed.

Example Split_empty : Split "" "," = [""].
Proof. reflexivity. Qed.

Example Contains_inside :
  Contains "text/html, application/vnd.ipfs.ipns-record" "vnd.ipfs" = true.
Proof. reflexivity. Qed.

(** A limited reader over a body delivers the first [n] bytes of the body.
    The way the stream ends is only seen when the body is shorter than the
    limit: at the limit the reader reports [io.EOF] by itself. *)
Lemma ReadAll_loop_LimitReader (fuel : nat) :
  forall (d : list byte) (e : option error) (n : Z) (b : list byte),
    (length d < fuel)%nat ->
    ReadAll_loop fuel (mkLimitedReader (mkBody d e) n) b =
    (b ++ take (Z.to_nat n) d,
     if Z.of_nat (length d) <? n then dropEOF e else None).
Proof.
  induction fuel as [|fuel IH]; intros d e n b Hfuel; [lia|].
  cbn [ReadAll_loop Read LimitedReader_Reader].
  unfold LimitedReader_Read; cbn [lr_N lr_R].
  destruct (Z.leb_spec n 0) as [Hn|Hn].
  - replace (Z.to_nat n) with O by lia. rewrite take_0.
    destruct (Z.ltb_spec (Z.of_nat (length d)) n); [lia|]. reflexivity.
  - set (k := if n <? Z.of_nat 512 then Z.to_nat n else 512%nat).
    assert (Hk : (1 <= k <= Z.to_nat n)%nat).
    { subst k. destruct (Z.ltb_spec n (Z.of_nat 512)); lia. }
    cbn [Read Body_Reader].
    unfold Body_Read. cbn [body_data body_end].
    destruct k as [|k']; [lia|].
    destruct d as [|x d'].
    + rewrite take_nil.
      replace (Z.of_nat (length []) <? n) with true by (symmetry; apply Z.ltb_lt; cbn; lia).
      destruct e as [[|msg]|]; reflexivity.
    + remember (x :: d') as d eqn:Hd.
      assert (Hlen : (1 <= length d)%nat) by (subst d; cbn; lia).
      rewrite IH; [| rewrite length_drop; lia].
      rewrite <- app_assoc. f_equal.
      * f_equal. rewrite length_take.
        destruct (Nat.le_gt_cases (S k') (length d)) as [Hle|Hgt].
        -- rewrite Nat.min_l by lia.
           rewrite <- (take_drop (S k') d) at 3.
           rewrite take_app_ge; rewrite length_take, Nat.min_l by lia; [|lia].
           do 2 f_equal. lia.
        -- rewrite Nat.min_r by lia.
           rewrite (take_ge d (S k')), (take_ge d (Z.to_nat n)), drop_ge by lia.
           rewrite take_nil, app_nil_r. reflexivity.
      * rewrite length_take, length_drop.
        destruct (Z.ltb_spec (Z.of_nat (length d)) n);
          destruct (Z.ltb_spec (Z.of_nat (length d - S k'))
                               (n - Z.of_nat (S k' `min` length d)));
          try reflexivity; lia.
Qed.

Lemma ReadAll_LimitReader (r : Body) (n : Z) :
  ReadAll (LimitReader r n) =
  (take (Z.to_nat n) (body_data r),
   if Z.of_nat (length (body_data r)) <? n then dropEOF (body_end r) else None).
Proof.
  destruct r as [d e]. unfold ReadAll, LimitReader.
  cbn [remaining LimitedReader_Reader Body_Reader lr_R body_data body_end].
  rewrite ReadAll_loop_LimitReader by lia. reflexivity.
Qed.

(** A body longer than the limit is cut to the limit, and no error is
    reported. *)
Lemma ReadAll_LimitReader_oversize (r : Body) (n : Z) :
  n <= Z.of_nat (length (body_data r)) ->
  ReadAll (LimitReader r n) = (take (Z.to_nat n) (body_data r), None).
Proof.
  intros Hn. rewrite ReadAll_LimitReader.
  destruct (Z.ltb_spec (Z.of_nat (length (body_data r))) n); [lia|reflexivity].
Qed.

(** * Package [server] *)

Section ServerFacts.

Variable E : Externals.

(** [writeErr] on the writer of a new request: the status is the one given,
    the body is the cause's message when the connection takes it. *)
Lemma writeErr_new (flusher : bool) (budget : option nat)
      (method : string) (code : Z) (cause : error) :
  server.writeErr (newResponseWriter flusher budget) method code cause =
  {| rw_header := ∅; rw_committed := Some (code, ∅);
     rw_body := if accepts budget then errorBody cause else [];
     rw_flushes := []; rw_flusher := flusher;
     rw_budget := if accepts budget then Nat.pred <$> budget else budget |}.
Proof.
  unfold server.writeErr, Write, WriteHeader, newResponseWriter, errorBody.
  cbn [rw_committed rw_budget rw_header rw_body rw_flushes rw_flusher].
  destruct budget as [[|n]|]; reflexivity.
Qed.

Lemma writeErr_new_statusCode flusher budget method code cause :
  statusCode (server.writeErr (newResponseWriter flusher budget) method code cause) = code.
Proof. rewrite writeErr_new. reflexivity. Qed.

Lemma writeErr_new_body flusher budget method code cause :
  rw_body (server.writeErr (newResponseWriter flusher budget) method code cause) =
  if accepts budget then errorBody cause else [].
Proof. rewrite writeErr_new. reflexivity. Qed.


(** ** Rejections before any backend call *)

(** C7: a request whose path key does not decode is answered with status 400
    by each of the three handlers (the two record handlers being given a
    header that names the record media type), and no backend method is
    called. *)
Theorem malformed_key_rejected (s : server.server E) (flusher : bool)
        (budget : option nat) (r : server.Request) (err : error) :
  cid_Decode E (server.vars_cid r) = inr err ->
  let w := newResponseWriter flusher budget in
  (statusCode (server.findProviders E s w r).1 = 400 /\
   (server.findProviders E s w r).2 = []) /\
  (Contains (Header_Get (server.req_Header r) "Accept") server.mediaTypeIPNSRecord = true ->
   statusCode (server.getIPNSRecord E s w r).1 = 400 /\
   (server.getIPNSRecord E s w r).2 = []) /\
  (Contains (Header_Get (server.req_Header r) "Content-Type") server.mediaTypeIPNSRecord = true ->
   statusCode (server.putIPNSRecord E s w r).1 = 400 /\
   (server.putIPNSRecord E s w r).2 = []).
Proof.
  intros Hkey w. subst w.
  unfold server.findProviders, server.getIPNSRecord, server.putIPNSRecord.
  rewrite Hkey. cbn [fst snd].
  split; [|split].
  - rewrite writeErr_new_statusCode. split; reflexivity.
  - intros ->. cbn [negb fst snd]. rewrite writeErr_new_statusCode. split; reflexivity.
  - intros ->. cbn [negb fst snd]. rewrite writeErr_new_statusCode. split; reflexivity.
Qed.

(** C8: a PUT whose body, as read, decodes into a record that fails
    validation against the name derived from the key is answered with status
    400 and the message [provided record is invalid: ] followed by the
    validation error, and the record is not handed to [ProvideIPNSRecord]. *)
Theorem invalid_record_not_stored (s : server.server E) (flusher : bool)
        (budget : option nat) (r : server.Request) (cid : Cid) (name : Name)
        (rawRecord : list byte) (record : ipns_Record E) (err : error) :
  Contains (Header_Get (server.req_Header r) "Content-Type") server.mediaTypeIPNSRecord = true ->
  cid_Decode E (server.vars_cid r) = inl cid ->
  NameFromCid E cid = inl name ->
  ReadAll (LimitReader (server.req_Body r) (MaxRecordSize E)) = (rawRecord, None) ->
  UnmarshalRecord E rawRecord = inl record ->
  ValidateWithName E record name = Some err ->
  let w := newResponseWriter flusher budget in
  let cause := errorString ("provided record is invalid: " +:+ Error err) in
  server.putIPNSRecord E s w r = (server.writeErr w "PutIPNSRecord" 400 cause, []) /\
  statusCode (server.putIPNSRecord E s w r).1 = 400 /\
  rw_body (server.putIPNSRecord E s w r).1 = (if accepts budget then errorBody cause else []) /\
  (server.putIPNSRecord E s w r).2 = [].
Proof.
  intros Hct Hkey Hname Hread Hrec Hval w cause.
  assert (Hput : server.putIPNSRecord E s w r = (server.writeErr w "PutIPNSRecord" 400 cause, [])).
  { unfold server.putIPNSRecord.
    rewrite Hct, Hkey, Hname, Hread, Hrec, Hval. reflexivity. }
  rewrite Hput. cbn [fst snd]. subst w.
  rewrite writeErr_new_statusCode, writeErr_new_body. auto.
Qed.

(** C1: what the handler does with a body longer than [MaxRecordSize].  The
    limited reader cuts the body and reports no error, so the branch that
    answers [provided record is too long] is not taken: the handler goes on
    with the first [MaxRecordSize] bytes, and when these are a valid record for
    the name the record is stored and the answer is 200. *)
Theorem oversize_body_is_cut_and_stored (s : server.server E) (flusher : bool)
        (budget : option nat) (r : server.Request)
        (cid : Cid) (name : Name) (record : ipns_Record E) :
  Contains (Header_Get (server.req_Header r) "Content-Type") server.mediaTypeIPNSRecord = true ->
  cid_Decode E (server.vars_cid r) = inl cid ->
  NameFromCid E cid = inl name ->
  MaxRecordSize E < Z.of_nat (length (body_data (server.req_Body r))) ->
  UnmarshalRecord E (take (Z.to_nat (MaxRecordSize E)) (body_data (server.req_Body r)))
    = inl record ->
  ValidateWithName E record name = None ->
  server.ProvideIPNSRecord E (server.svc E s) name record = None ->
  let w := newResponseWriter flusher budget in
  statusCode (server.putIPNSRecord E s w r).1 = 200 /\
  rw_body (server.putIPNSRecord E s w r).1 = [] /\
  (server.putIPNSRecord E s w r).2 = [server.Call_ProvideIPNSRecord E name record].
Proof.
  intros Hct Hkey Hname Hlen Hrec Hval Hstore w.
  unfold server.putIPNSRecord.
  rewrite Hct, Hkey, Hname, ReadAll_LimitReader_oversize by lia.
  cbn [negb]. rewrite Hrec, Hval, Hstore. cbn [fst snd]. subst w.
  split; [|split]; reflexivity.
Qed.

(** The branch that answers [provided record is too long] is taken exactly
    when the body is shorter than the limit and its stream ends in a transport
    error. *)
Lemma too_long_only_on_read_error (r : Body) (n : Z) (err : error) :
  (ReadAll (LimitReader r n)).2 = Some err ->
  Z.of_nat (length (body_data r)) < n /\ body_end r = Some err.
Proof.
  rewrite ReadAll_LimitReader. cbn [snd].
  destruct (Z.ltb_spec (Z.of_nat (length (body_data r))) n); [|discriminate].
  destruct (body_end r) as [[|msg]|]; cbn [dropEOF]; intros Heq; try discriminate.
  split; [assumption|congruence].
Qed.

End ServerFacts.

Lemma malformed_key_rejected_sample :
  let r := sample.request "zzz"
             [("Accept", ["application/vnd.ipfs.ipns-record"]);
              ("Content-Type", ["application/vnd.ipfs.ipns-record"])] [] in
  let s := server.Handler sample.externals sample.backend [] in
  let w := newResponseWriter true None in
  (statusCode (server.findProviders sample.externals s w r).1 = 400 /\
   (server.findProviders sample.externals s w r).2 = []) /\
  (statusCode (server.getIPNSRecord sample.externals s w r).1 = 400 /\
   (server.getIPNSRecord sample.externals s w r).2 = []) /\
  (statusCode (server.putIPNSRecord sample.externals s w r).1 = 400 /\
   (server.putIPNSRecord sample.externals s w r).2 = []).
Proof.
  intros r s w.
  destruct (malformed_key_rejected sample.externals s true None r
              (errorString "invalid cid: selected encoding not supported")
              ltac:(reflexivity)) as [H1 [H2 H3]].
  split; [exact H1|]. split; [apply H2; reflexivity | apply H3; reflexivity].
Defined.

(** ** Content negotiation *)

Section NegotiationFacts.

Variable E : Externals.

(** Case analysis on every boolean test in the goal. *)
Ltac bool_cases :=
  repeat match goal with
         | |- context [existsb ?f ?l] => destruct (existsb f l)
         | |- context [String.eqb ?a ?b] => destruct (String.eqb a b)
         | b : bool |- _ => destruct b
         end;
  first [reflexivity | discriminate | intros; discriminate].

Lemma malformed_app (a b : list string) :
  negotiation.malformed E (a ++ b) =
  match negotiation.malformed E a with
  | Some err => Some err
  | None => negotiation.malformed E b
  end.
Proof.
  induction a as [|tok a IH]; cbn [app negotiation.malformed]; [reflexivity|].
  destruct (ParseMediaType E tok).2; [reflexivity|exact IH].
Qed.

Lemma lists_app (a b : list string) (mediaType : string) :
  negotiation.lists E (a ++ b) mediaType =
  negotiation.lists E a mediaType || negotiation.lists E b mediaType.
Proof. apply existsb_app. Qed.

(** The three media types the handler looks for are distinct. *)
Lemma eqb_JSON_or_wildcard_not_NDJSON (mediaType : string) :
  String.eqb mediaType server.mediaTypeJSON || String.eqb mediaType server.mediaTypeWildcard = true ->
  String.eqb mediaType server.mediaTypeNDJSON = false.
Proof.
  intros H. apply orb_true_iff in H.
  destruct H as [H|H]; apply String.eqb_eq in H; subst mediaType; reflexivity.
Qed.

(** The inner loop, from any pair of flags: it stops at the first malformed
    token, and otherwise raises a flag for each media type that is listed. *)
Lemma findProviders_accepts_spec (toks : list string) :
  forall supportsJSON supportsNDJSON : bool,
    server.findProviders_accepts E toks (supportsJSON, supportsNDJSON) =
    match negotiation.malformed E toks with
    | Some err => inr err
    | None =>
        inl (supportsJSON
             || (negotiation.lists E toks server.mediaTypeJSON
                 || negotiation.lists E toks server.mediaTypeWildcard),
             supportsNDJSON || negotiation.lists E toks server.mediaTypeNDJSON)
    end.
Proof.
  induction toks as [|tok toks IH]; intros j n;
    cbn [server.findProviders_accepts negotiation.malformed negotiation.lists existsb].
  - rewrite !orb_false_r. reflexivity.
  - destruct (ParseMediaType E tok) as [mediaType [err|]]; cbn [fst snd]; [reflexivity|].
    destruct (String.eqb mediaType server.mediaTypeJSON
              || String.eqb mediaType server.mediaTypeWildcard) eqn:HJ.
    + rewrite (eqb_JSON_or_wildcard_not_NDJSON _ HJ). cbn [fst snd].
      rewrite IH. fold (negotiation.lists E toks).
      destruct (negotiation.malformed E toks); [reflexivity|].
      unfold negotiation.lists. revert HJ. bool_cases.
    + apply orb_false_iff in HJ. destruct HJ as [-> ->].
      destruct (String.eqb mediaType server.mediaTypeNDJSON); cbn [fst snd orb];
        rewrite IH; destruct (negotiation.malformed E toks); try reflexivity;
        unfold negotiation.lists; bool_cases.
Qed.

(** The outer loop, over all tokens of all headers. *)
Lemma findProviders_acceptHeaders_spec (acceptHeaders : list string) :
  forall supportsJSON supportsNDJSON : bool,
    server.findProviders_acceptHeaders E acceptHeaders (supportsJSON, supportsNDJSON) =
    let toks := negotiation.tokens acceptHeaders in
    match negotiation.malformed E toks with
    | Some err => inr err
    | None =>
        inl (supportsJSON
             || (negotiation.lists E toks server.mediaTypeJSON
                 || negotiation.lists E toks server.mediaTypeWildcard),
             supportsNDJSON || negotiation.lists E toks server.mediaTypeNDJSON)
    end.
Proof.
  induction acceptHeaders as [|h hs IH]; intros j n.
  - cbn. rewrite !orb_false_r. reflexivity.
  - cbn [server.findProviders_acceptHeaders]. cbv zeta.
    change (negotiation.tokens (h :: hs)) with (Split h "," ++ negotiation.tokens hs).
    rewrite findProviders_accepts_spec, malformed_app, !lists_app.
    destruct (negotiation.malformed E (Split h ",")); [reflexivity|].
    rewrite IH. cbv zeta.
    destruct (negotiation.malformed E (negotiation.tokens hs)); [reflexivity|].
    unfold negotiation.lists. bool_cases.
Qed.

(** C3: with a well-formed key, the discovery handler answers as the
    negotiation rules say: no [Accept] header gives the bulk strategy with the
    bulk limit; a malformed token in any header gives a 400; otherwise a listed
    streaming type, streaming not being disabled, gives the streaming strategy
    with the streaming limit; otherwise a listed JSON or wildcard type gives
    the bulk strategy; otherwise a 400 [no supported content types].  On a 400
    no backend method is called. *)
Theorem findProviders_negotiation (s : server.server E) (flusher : bool)
        (budget : option nat) (httpReq : server.Request) (cid : Cid) :
  cid_Decode E (server.vars_cid httpReq) = inl cid ->
  let w := newResponseWriter flusher budget in
  let o := negotiation.negotiate E (server.disableNDJSON E s) (server.recordsLimit E s)
             (server.streamingRecordsLimit E s)
             (Header_Values (server.req_Header httpReq) "Accept") in
  server.findProviders E s w httpReq = negotiation.respond E s w cid o /\
  forall cause : error,
    o = negotiation.BadRequest cause ->
    statusCode (server.findProviders E s w httpReq).1 = 400 /\
    rw_body (server.findProviders E s w httpReq).1
      = (if accepts budget then errorBody cause else []) /\
    (server.findProviders E s w httpReq).2 = [].
Proof.
  intros Hkey w o.
  assert (Heq : server.findProviders E s w httpReq = negotiation.respond E s w cid o).
  { subst o. unfold server.findProviders, negotiation.negotiate. rewrite Hkey. cbv zeta.
    destruct (Header_Values (server.req_Header httpReq) "Accept") as [|h hs] eqn:Hh.
    - cbn [length Nat.eqb negotiation.respond].
      destruct (server.FindProviders E (server.svc E s) cid (server.recordsLimit E s));
        [|reflexivity].
      destruct (server.findProvidersJSON E w r); reflexivity.
    - cbn [length Nat.eqb].
      rewrite findProviders_acceptHeaders_spec. cbv zeta. cbn [orb].
      destruct (negotiation.malformed E (negotiation.tokens (h :: hs))); [reflexivity|].
      destruct (negotiation.lists E (negotiation.tokens (h :: hs)) server.mediaTypeNDJSON
                && negb (server.disableNDJSON E s)).
      + cbn [negotiation.respond].
        destruct (server.FindProviders E (server.svc E s) cid (server.streamingRecordsLimit E s));
          [|reflexivity].
        destruct (server.findProvidersNDJSON E w r); reflexivity.
      + destruct (negotiation.lists E (negotiation.tokens (h :: hs)) server.mediaTypeJSON
                  || negotiation.lists E (negotiation.tokens (h :: hs)) server.mediaTypeWildcard);
          [|reflexivity].
        cbn [negotiation.respond].
        destruct (server.FindProviders E (server.svc E s) cid (server.recordsLimit E s));
          [|reflexivity].
        destruct (server.findProvidersJSON E w r); reflexivity. }
  split; [exact Heq|].
  intros cause Ho. rewrite Heq, Ho. cbn [negotiation.respond fst snd]. subst w.
  rewrite writeErr_new_statusCode, writeErr_new_body. auto.
Qed.

End NegotiationFacts.

(** ** The two discovery strategies *)

Section Discovery.

Variable E : Externals.

Lemma wrap_int_id (z : Z) : - 2 ^ 63 <= z < 2 ^ 63 -> wrap_int z = z.
Proof. intros Hz. unfold wrap_int. rewrite Z.mod_small by lia. lia. Qed.

(** A sequence of values is collected whole, in the order of the sequence. *)
Lemma findProvidersJSON_loop_values (records : list Record_) :
  forall (providers : list Record_) (i : Z),
    server.findProvidersJSON_loop (map ResultVal records) providers i
    = inl (providers ++ records).
Proof.
  induction records as [|v records IH]; intros providers i; cbn [map server.findProvidersJSON_loop].
  - rewrite app_nil_r. reflexivity.
  - rewrite IH, <- app_assoc. reflexivity.
Qed.

(** The loop stops at the first item with an error, and [i] then counts the
    values before it. *)
Lemma findProvidersJSON_loop_error (pre : list Record_) (err : error)
      (rest : ResultIter Record_) :
  forall (providers : list Record_) (i : Z),
    0 <= i -> i + Z.of_nat (length pre) < 2 ^ 63 ->
    server.findProvidersJSON_loop (map ResultVal pre ++ ResultErr err :: rest) providers i
    = inr (i + Z.of_nat (length pre), err).
Proof.
  induction pre as [|v pre IH]; intros providers i Hi Hlen;
    cbn [map app server.findProvidersJSON_loop length].
  - rewrite Z.add_0_r. reflexivity.
  - unfold int_incr. rewrite wrap_int_id by (cbn [length] in Hlen; lia).
    rewrite IH by (cbn [length] in Hlen; lia).
    do 2 f_equal. cbn [length]. lia.
Qed.

(** C4: with a well-formed key and no [Accept] header, a backend sequence of
    N values that then ends is answered with status 200, one [Content-Type]
    of JSON, and the marshalled response object whose [Providers] list is
    exactly the N records in the order of the sequence; the backend was asked
    once, with the bulk limit. *)
Theorem bulk_lists_records_in_order (s : server.server E) (flusher : bool)
        (budget : option nat) (httpReq : server.Request) (cid : Cid)
        (records : list Record_) (b : list byte) :
  cid_Decode E (server.vars_cid httpReq) = inl cid ->
  Header_Values (server.req_Header httpReq) "Accept" = [] ->
  server.FindProviders E (server.svc E s) cid (server.recordsLimit E s)
    = inl (map ResultVal records) ->
  MarshalJSONBytes E (any_ProvidersResponse (mkProvidersResponse records)) = inl b ->
  accepts budget = true ->
  let w' := (server.findProviders E s (newResponseWriter flusher budget) httpReq).1 in
  statusCode w' = 200 /\
  sentHeader w' !! "Content-Type" = Some [server.mediaTypeJSON] /\
  (exists response : ProvidersResponse,
      Providers response = records /\
      length (Providers response) = length records /\
      MarshalJSONBytes E (any_ProvidersResponse response) = inl (rw_body w')) /\
  (server.findProviders E s (newResponseWriter flusher budget) httpReq).2
    = [server.Call_FindProviders E cid (server.recordsLimit E s); server.Call_Close E].
Proof.
  intros Hkey Haccept Hfind Hjson Hbudget w'. subst w'.
  unfold server.findProviders. rewrite Hkey, Haccept. cbv zeta.
  cbn [length Nat.eqb]. rewrite Hfind.
  unfold server.findProvidersJSON.
  rewrite findProvidersJSON_loop_values. cbn [app fst snd].
  unfold server.writeJSONResult. rewrite Hjson.
  assert (Hw : let w := fst (server.io_Copy
                 (w_Header_Add (newResponseWriter flusher budget) "Content-Type"
                    server.mediaTypeJSON) b) in
               statusCode w = 200 /\
               sentHeader w !! "Content-Type" = Some [server.mediaTypeJSON] /\
               rw_body w = b).
  { unfold server.io_Copy, Write, WriteHeader, w_Header_Add, newResponseWriter,
      statusCode, sentHeader, Header_Add, Header_Values.
    destruct b as [|x b]; destruct budget as [[|n]|]; try discriminate Hbudget;
      cbn; rewrite ?lookup_insert_eq; auto. }
  destruct Hw as (Hstatus & Hheader & Hbody).
  split; [exact Hstatus|]. split; [exact Hheader|]. split; [|reflexivity].
  exists (mkProvidersResponse records). cbn [Providers].
  rewrite Hbody. auto.
Qed.

(** The decimal digits printed for an index denote the index. *)
Lemma digits_value_digit (u b : Z) :
  0 <= u < b -> b <= 36 -> digit_value (digit u) = u.
Proof.
  intros Hu Hb.
  assert (Hcases : u = 0 \/ u = 1 \/ u = 2 \/ u = 3 \/ u = 4 \/ u = 5 \/ u = 6 \/ u = 7 \/
                   u = 8 \/ u = 9 \/ u = 10 \/ u = 11 \/ u = 12 \/ u = 13 \/ u = 14 \/
                   u = 15 \/ u = 16 \/ u = 17 \/ u = 18 \/ u = 19 \/ u = 20 \/ u = 21 \/
                   u = 22 \/ u = 23 \/ u = 24 \/ u = 25 \/ u = 26 \/ u = 27 \/ u = 28 \/
                   u = 29 \/ u = 30 \/ u = 31 \/ u = 32 \/ u = 33 \/ u = 34 \/ u = 35) by lia.
  repeat (destruct Hcases as [->|Hcases]; [reflexivity|]). subst u. reflexivity.
Qed.

Lemma digits_value_formatBits (fuel : nat) :
  forall (u b : Z) (a : string),
    2 <= b <= 36 -> 0 <= u < b ^ Z.of_nat (S fuel) ->
    digits_value b (formatBits fuel u b a) 0 = digits_value b a u.
Proof.
  induction fuel as [|fuel IH]; intros u b a Hb Hu; cbn [formatBits].
  - cbn [digits_value]. rewrite (digits_value_digit u b) by (cbn in Hu; lia).
    reflexivity.
  - destruct (Z.leb_spec b u) as [Hle|Hlt].
    + rewrite IH; [|lia|].
      * cbn [digits_value].
        rewrite (digits_value_digit (u mod b) b) by (try apply Z.mod_pos_bound; lia).
        f_equal. rewrite Z.mul_comm. symmetry. apply Z.div_mod. lia.
      * split; [apply Z.div_pos; lia|].
        apply Z.div_lt_upper_bound; [lia|].
        replace (Z.of_nat (S (S fuel))) with (Z.succ (Z.of_nat (S fuel))) in Hu by lia.
        rewrite Z.pow_succ_r in Hu by lia. lia.
    + cbn [digits_value]. rewrite (digits_value_digit u b) by lia. reflexivity.
Qed.

Lemma digits_value_FormatUint (u b : Z) :
  2 <= b <= 36 -> 0 <= u < 2 ^ 64 ->
  digits_value b (FormatUint u b) 0 = u.
Proof.
  intros Hb Hu. unfold FormatUint. rewrite digits_value_formatBits; [reflexivity|lia|].
  split; [lia|].
  apply Z.lt_le_trans with (2 ^ 65); [lia|].
  change (Z.of_nat 65) with 65. apply Z.pow_le_mono_l. lia.
Qed.

(** C5: in the bulk strategy, an error at position [k] after [k] values is
    answered with status 500 and the message
    [delegate error on result k: ] followed by the error (cut to 1024 bytes by
    [writeErr]); the status line is the first thing committed, without any
    header of a success response, and the body holds the message only. *)
Theorem bulk_error_aborts_with_500 (flusher : bool) (budget : option nat)
        (pre : list Record_) (err : error) (rest : ResultIter Record_) :
  Z.of_nat (length pre) < 2 ^ 63 ->
  let provIter := map ResultVal pre ++ ResultErr err :: rest in
  let k := Z.of_nat (length pre) in
  let cause :=
    errorString ("delegate error on result " +:+ FormatInt10 k +:+ ": " +:+ Error err) in
  let w := newResponseWriter flusher budget in
  server.findProvidersJSON E w provIter
    = (server.writeErr w "FindProviders" 500 cause, [server.Call_Close E]) /\
  digits_value 10 (FormatInt10 k) 0 = k /\
  rw_committed (server.findProvidersJSON E w provIter).1 = Some (500, ∅) /\
  rw_body (server.findProvidersJSON E w provIter).1
    = (if accepts budget then errorBody cause else []).
Proof.
  intros Hlen provIter k cause w.
  assert (Heq : server.findProvidersJSON E w provIter
                = (server.writeErr w "FindProviders" 500 cause, [server.Call_Close E])).
  { unfold server.findProvidersJSON. subst provIter.
    rewrite findProvidersJSON_loop_error by lia. reflexivity. }
  split; [exact Heq|]. split.
  - unfold FormatInt10. destruct (Z.ltb_spec k 0); [subst k; lia|].
    apply digits_value_FormatUint; subst k; lia.
  - rewrite Heq. cbn [fst]. subst w. rewrite writeErr_new. auto.
Qed.

(** The streaming loop writes nothing for an item with an error, nor for any
    item after it: the stream is what the items before it produced. *)
Lemma findProvidersNDJSON_loop_error (items : ResultIter Record_) (err : error)
      (rest : ResultIter Record_) :
  forall w : ResponseWriter,
    server.findProvidersNDJSON_loop E w (items ++ ResultErr err :: rest)
    = server.findProvidersNDJSON_loop E w items.
Proof.
  induction items as [|[v|e] items IH]; intros w; cbn [app server.findProvidersNDJSON_loop];
    try reflexivity.
  destruct (MarshalJSONBytes E (any_Record v)) as [b|]; [|reflexivity].
  destruct (Write w b) as [w1 [e1|]]; [reflexivity|].
  destruct (Write w1 [x0a]) as [w2 [e2|]]; [reflexivity|].
  apply IH.
Qed.

(** A write on a committed response whose connection holds appends to the
    body and leaves the status line alone. *)
Lemma Write_committed (w : ResponseWriter) (b : list byte) (c : Z * Header) :
  rw_committed w = Some c -> accepts (rw_budget w) = true ->
  Write w b =
  ({| rw_header := rw_header w; rw_committed := Some c; rw_body := rw_body w ++ b;
      rw_flushes := rw_flushes w; rw_flusher := rw_flusher w;
      rw_budget := Nat.pred <$> rw_budget w |}, None).
Proof.
  intros Hc Hb. unfold Write, WriteHeader. rewrite Hc.
  destruct (rw_budget w) as [[|n]|]; try discriminate Hb; rewrite Hc; reflexivity.
Qed.

(** Values that marshal, on a connection that holds: each adds its line to
    the body, and nothing else of the response changes. *)
Lemma findProvidersNDJSON_loop_values (pre : list Record_) (lines : list (list byte)) :
  Forall2 (fun v b => MarshalJSONBytes E (any_Record v) = inl b) pre lines ->
  forall (w : ResponseWriter) (c : Z * Header),
    rw_committed w = Some c ->
    takes (rw_budget w) (2 * length pre) ->
    rw_committed (server.findProvidersNDJSON_loop E w (map ResultVal pre)) = Some c /\
    rw_body (server.findProvidersNDJSON_loop E w (map ResultVal pre))
      = rw_body w ++ concat (map (fun b => b ++ [x0a]) lines).
Proof.
  induction 1 as [|v b pre lines Hv _ IH]; intros w c Hc Hbudget;
    cbn [map concat server.findProvidersNDJSON_loop].
  - rewrite app_nil_r. auto.
  - rewrite Hv.
    assert (H1 : accepts (rw_budget w) = true).
    { destruct (rw_budget w) as [[|n]|] eqn:Hb; try reflexivity.
      specialize (Hbudget O eq_refl). cbn [length] in Hbudget. lia. }
    rewrite (Write_committed w b c Hc H1).
    assert (H2 : accepts (Nat.pred <$> rw_budget w) = true).
    { destruct (rw_budget w) as [[|[|n]]|] eqn:Hb; try reflexivity.
      - discriminate H1.
      - specialize (Hbudget 1%nat eq_refl). cbn [length] in Hbudget. lia. }
    rewrite Write_committed with (c := c); [|reflexivity|exact H2].
    cbn [rw_header rw_committed rw_body rw_flushes rw_flusher rw_budget].
    match goal with |- context [server.findProvidersNDJSON_loop E ?w1 _] =>
      destruct (IH w1 c) as [IHc IHb]
    end.
    + unfold Flush. cbn [rw_flusher]. destruct (rw_flusher w); [|reflexivity].
      unfold WriteHeader. cbn [rw_committed]. reflexivity.
    + intros n Hn. cbn [length] in Hbudget.
      assert (Hb : rw_budget (Flush
                {| rw_header := rw_header w; rw_committed := Some c;
                   rw_body := (rw_body w ++ b) ++ [x0a]; rw_flushes := rw_flushes w;
                   rw_flusher := rw_flusher w;
                   rw_budget := Nat.pred <$> (Nat.pred <$> rw_budget w) |})
              = Nat.pred <$> (Nat.pred <$> rw_budget w)).
      { unfold Flush. cbn [rw_flusher]. destruct (rw_flusher w); reflexivity. }
      rewrite Hb in Hn.
      destruct (rw_budget w) as [m|] eqn:Hm; [|discriminate Hn].
      specialize (Hbudget m eq_refl). cbn in Hn. injection Hn as <-. lia.
    + split; [exact IHc|]. rewrite IHb.
      assert (Hbody : forall w0, rw_body (Flush w0) = rw_body w0).
      { intros w0. unfold Flush, WriteHeader.
        destruct (rw_flusher w0); [|reflexivity].
        destruct (rw_committed w0); reflexivity. }
      rewrite Hbody. cbn [rw_body]. rewrite <- !app_assoc. reflexivity.
Qed.

(** C6: in the streaming strategy, when the item after the values [pre]
    carries an error, the response is the one committed at the start, status
    200 with the streaming content type, and its body is exactly one line per
    value of [pre], each the marshalled record followed by a line feed;
    nothing is written for the error or after it.  (The values are taken to
    marshal and the connection to hold for their writes, as reaching the
    error item requires.) *)
Theorem stream_ends_silently_at_error (flusher : bool) (budget : option nat)
        (pre : list Record_) (lines : list (list byte)) (err : error)
        (rest : ResultIter Record_) :
  Forall2 (fun v b => MarshalJSONBytes E (any_Record v) = inl b) pre lines ->
  takes budget (2 * length pre) ->
  let w := newResponseWriter flusher budget in
  let provIter := map ResultVal pre ++ ResultErr err :: rest in
  rw_committed (server.findProvidersNDJSON E w provIter).1
    = Some (200, {[ "Content-Type" := [server.mediaTypeNDJSON] ]}) /\
  rw_body (server.findProvidersNDJSON E w provIter).1
    = concat (map (fun b => b ++ [x0a]) lines) /\
  server.findProvidersNDJSON E w provIter
    = server.findProvidersNDJSON E w (map ResultVal pre).
Proof.
  intros Hlines Hbudget w provIter.
  assert (Hsame : server.findProvidersNDJSON E w provIter
                  = server.findProvidersNDJSON E w (map ResultVal pre)).
  { unfold server.findProvidersNDJSON. subst provIter.
    rewrite findProvidersNDJSON_loop_error. reflexivity. }
  rewrite Hsame. unfold server.findProvidersNDJSON. cbn [fst].
  destruct (findProvidersNDJSON_loop_values pre lines Hlines
              (WriteHeader (w_Header_Set w "Content-Type" server.mediaTypeNDJSON) StatusOK)
              (200, {[ "Content-Type" := [server.mediaTypeNDJSON] ]}))
    as [Hc Hb]; [reflexivity|exact Hbudget|].
  rewrite Hc, Hb. auto.
Qed.

End Discovery.

(** ** The entity tag of a record *)

Section Pigeonhole.

(** Whether a value is taken below a bound can be decided by search. *)
Lemma bounded_search (f : Z -> Z) (v : Z) (m : Z) :
  0 <= m ->
  (exists i, 0 <= i < m /\ f i = v) \/ (forall i, 0 <= i < m -> f i <> v).
Proof.
  revert m. apply (natlike_ind (fun m =>
    (exists i, 0 <= i < m /\ f i = v) \/ (forall i, 0 <= i < m -> f i <> v))).
  - right. intros i Hi. lia.
  - intros m Hm [(i & Hi & Hfi)|Hnone].
    + left. exists i. split; [lia|exact Hfi].
    + destruct (Z.eq_dec (f m) v) as [Heq|Hne].
      * left. exists m. split; [lia|exact Heq].
      * right. intros i Hi. destruct (Z.eq_dec i m) as [->|Him]; [exact Hne|].
        apply Hnone. lia.
Qed.

(** [n + 1] arguments with values below [n]: two of them share a value. *)
Lemma pigeonhole (n : Z) :
  0 <= n ->
  forall f : Z -> Z,
    (forall i, 0 <= i <= n -> 0 <= f i < n) ->
    exists i j, 0 <= i < j /\ j <= n /\ f i = f j.
Proof.
  revert n. apply (natlike_ind (fun n => forall f : Z -> Z,
    (forall i, 0 <= i <= n -> 0 <= f i < n) ->
    exists i j, 0 <= i < j /\ j <= n /\ f i = f j)).
  - intros f Hf. specialize (Hf 0). lia.
  - intros n Hn IH f Hf.
    destruct (bounded_search f (f (Z.succ n)) (Z.succ n)) as [(i & Hi & Hfi)|Hnone]; [lia| |].
    + exists i, (Z.succ n). split; [lia|]. split; [lia|exact Hfi].
    + set (v := f (Z.succ n)) in *.
      assert (Hv : 0 <= v < Z.succ n) by (apply Hf; lia).
      destruct (IH (fun i => if f i <? v then f i else f i - 1)) as (i & j & Hij & Hjn & Hg).
      * intros i Hi. cbv beta.
        assert (0 <= f i < Z.succ n) by (apply Hf; lia).
        assert (f i <> v) by (apply Hnone; lia).
        destruct (Z.ltb_spec (f i) v); lia.
      * exists i, j. split; [lia|]. split; [lia|]. cbv beta in Hg.
        assert (f i <> v) by (apply Hnone; lia).
        assert (f j <> v) by (apply Hnone; lia).
        destruct (Z.ltb_spec (f i) v); destruct (Z.ltb_spec (f j) v); lia.
Qed.

Lemma byte_value_roundtrip (x : Z) :
  0 <= x < 256 ->
  Z.of_N (N_of_ascii (ascii_of_byte (byte_of_ascii (ascii_of_N (Z.to_N x))))) = x.
Proof.
  intros Hx. rewrite ascii_of_byte_of_ascii, N_ascii_embedding by lia. lia.
Qed.

Lemma le_value_le_bytes (n : nat) :
  forall i : Z, 0 <= i -> le_value (le_bytes n i) = i mod 256 ^ Z.of_nat n.
Proof.
  induction n as [|n IH]; intros i Hi; cbn [le_bytes le_value].
  - change (256 ^ Z.of_nat 0) with 1. rewrite Z.mod_1_r. reflexivity.
  - rewrite byte_value_roundtrip by (apply Z.mod_pos_bound; lia).
    rewrite IH by (apply Z.div_pos; lia).
    replace (Z.of_nat (S n)) with (Z.succ (Z.of_nat n)) by lia.
    rewrite Z.pow_succ_r by lia.
    rewrite Z.rem_mul_r by lia. reflexivity.
Qed.

Lemma length_le_bytes (n : nat) : forall i : Z, length (le_bytes n i) = n.
Proof. induction n as [|n IH]; intros i; cbn [le_bytes length]; [|rewrite IH]; reflexivity. Qed.

End Pigeonhole.

Section Etag.

Variable E : Externals.

(** Whatever the hash function, two distinct strings of nine bytes have the
    same entity tag: there are more such strings than 64-bit sums. *)
Lemma recordEtag_collision :
  exists b1 b2 : list byte,
    length b1 = 9%nat /\ length b2 = 9%nat /\ b1 <> b2 /\ recordEtag E b1 = recordEtag E b2.
Proof.
  destruct (pigeonhole (2 ^ 64) ltac:(lia) (fun i => Sum64 E (le_bytes 9 i)))
    as (i & j & Hij & Hjn & Hsum).
  { intros i _. apply Sum64_uint64. }
  exists (le_bytes 9 i), (le_bytes 9 j).
  rewrite !length_le_bytes. split; [reflexivity|]. split; [reflexivity|]. split.
  - intros Heq. apply (f_equal le_value) in Heq.
    rewrite !le_value_le_bytes in Heq by lia.
    change (Z.of_nat 9) with 9 in Heq.
    rewrite !Z.mod_small in Heq by lia. lia.
  - unfold recordEtag. cbv beta in Hsum. rewrite Hsum. reflexivity.
Qed.

(** The rendering in base 32 loses nothing of the 64-bit sum. *)
Lemma recordEtag_eq_iff (b1 b2 : list byte) :
  recordEtag E b1 = recordEtag E b2 <-> Sum64 E b1 = Sum64 E b2.
Proof.
  unfold recordEtag. split; [|intros ->; reflexivity].
  intros Heq. apply (f_equal (fun s => digits_value 32 s 0)) in Heq.
  rewrite !digits_value_FormatUint in Heq by (try apply Sum64_uint64; lia).
  exact Heq.
Qed.

(** The first write on a response commits status 200 and the headers set so
    far. *)
Lemma Write_uncommitted (w : ResponseWriter) (b : list byte) :
  rw_committed w = None ->
  statusCode (Write w b).1 = 200 /\ sentHeader (Write w b).1 = rw_header w.
Proof.
  intros Hc. unfold Write, WriteHeader, statusCode, sentHeader. rewrite Hc.
  cbn [rw_budget]. destruct (rw_budget w) as [[|n]|]; split; reflexivity.
Qed.

(** A record GET that finds a record and marshals it answers 200 with the
    entity tag of the marshalled bytes. *)
Lemma getIPNSRecord_Etag (s : server.server E) (flusher : bool)
      (budget : option nat) (r : server.Request)
      (cid : Cid) (name : Name) (record : ipns_Record E) (rawRecord : list byte) :
  Contains (Header_Get (server.req_Header r) "Accept") server.mediaTypeIPNSRecord = true ->
  cid_Decode E (server.vars_cid r) = inl cid ->
  NameFromCid E cid = inl name ->
  server.FindIPNSRecord E (server.svc E s) name = inl record ->
  MarshalRecord E record = inl rawRecord ->
  let w' := (server.getIPNSRecord E s (newResponseWriter flusher budget) r).1 in
  statusCode w' = 200 /\ sentHeader w' !! "Etag" = Some [recordEtag E rawRecord].
Proof.
  intros Haccept Hkey Hname Hfind Hraw w'. subst w'.
  unfold server.getIPNSRecord.
  rewrite Haccept, Hkey, Hname, Hfind, Hraw. cbn [negb fst].
  split.
  - destruct (Record_TTL E record); apply Write_uncommitted; reflexivity.
  - fold (recordEtag E rawRecord).
    destruct (Record_TTL E record);
      match goal with
      | |- sentHeader (Write ?w ?b).1 !! _ = _ =>
          rewrite (proj2 (Write_uncommitted w b eq_refl))
      end;
      unfold w_Header_Set, Header_Set; cbn [rw_header];
      (rewrite lookup_insert_ne by discriminate); rewrite lookup_insert_eq; reflexivity.
Qed.

(** C9, as amended: the [Etag] the record GET handler sends is the base-32
    rendering of the 64-bit sum of the canonical record bytes.  For any two
    GETs that find a record (whatever the servers, the requests and the
    records), identical canonical bytes give identical tags, and the tags
    differ exactly when the 64-bit sums of the bytes differ. *)
Theorem etag_is_sum_of_record_bytes
        (s1 s2 : server.server E) (flusher1 flusher2 : bool)
        (budget1 budget2 : option nat) (r1 r2 : server.Request)
        (cid1 cid2 : Cid) (name1 name2 : Name) (record1 record2 : ipns_Record E)
        (rawRecord1 rawRecord2 : list byte) :
  Contains (Header_Get (server.req_Header r1) "Accept") server.mediaTypeIPNSRecord = true ->
  Contains (Header_Get (server.req_Header r2) "Accept") server.mediaTypeIPNSRecord = true ->
  cid_Decode E (server.vars_cid r1) = inl cid1 ->
  cid_Decode E (server.vars_cid r2) = inl cid2 ->
  NameFromCid E cid1 = inl name1 ->
  NameFromCid E cid2 = inl name2 ->
  server.FindIPNSRecord E (server.svc E s1) name1 = inl record1 ->
  server.FindIPNSRecord E (server.svc E s2) name2 = inl record2 ->
  MarshalRecord E record1 = inl rawRecord1 ->
  MarshalRecord E record2 = inl rawRecord2 ->
  let etag1 :=
    sentHeader (server.getIPNSRecord E s1 (newResponseWriter flusher1 budget1) r1).1 !! "Etag" in
  let etag2 :=
    sentHeader (server.getIPNSRecord E s2 (newResponseWriter flusher2 budget2) r2).1 !! "Etag" in
  etag1 = Some [FormatUint (Sum64 E rawRecord1) 32] /\
  etag2 = Some [FormatUint (Sum64 E rawRecord2) 32] /\
  (rawRecord1 = rawRecord2 -> etag1 = etag2) /\
  (etag1 <> etag2 <-> Sum64 E rawRecord1 <> Sum64 E rawRecord2).
Proof.
  intros Ha1 Ha2 Hk1 Hk2 Hn1 Hn2 Hf1 Hf2 Hm1 Hm2 etag1 etag2.
  destruct (getIPNSRecord_Etag s1 flusher1 budget1 r1 cid1 name1 record1 rawRecord1
              Ha1 Hk1 Hn1 Hf1 Hm1) as [_ He1].
  destruct (getIPNSRecord_Etag s2 flusher2 budget2 r2 cid2 name2 record2 rawRecord2
              Ha2 Hk2 Hn2 Hf2 Hm2) as [_ He2].
  subst etag1 etag2. rewrite He1, He2.
  split; [reflexivity|]. split; [reflexivity|]. split.
  - intros ->. reflexivity.
  - rewrite <- recordEtag_eq_iff. split.
    + intros Hne Heq. apply Hne. rewrite Heq. reflexivity.
    + intros Hne Heq. apply Hne. congruence.
Qed.

End Etag.

(** C9, as stated, fails: no hash function makes the entity tag differ on
    every two differing byte strings. *)
Lemma etag_does_not_separate_all_bytes :
  ~ (exists E : Externals,
        forall b1 b2 : list byte, b1 <> b2 -> recordEtag E b1 <> recordEtag E b2).
Proof.
  intros [E Hinj].
  destruct (recordEtag_collision E) as (b1 & b2 & _ & _ & Hne & Heq).
  exact (Hinj b1 b2 Hne Heq).
Qed.

(** * Package [contentrouter] *)

Section ContentRouterFacts.

Variable E : Externals.

(** The loop forwards the peer-address values of the sequence, in order,
    skipping every other item; without a nil identity it does not panic. *)
Lemma readProviderResponses_loop_spec (iter : ResultIter Record_) :
  Forall (fun res => nilPeer E res = false) iter ->
  contentrouter.readProviderResponses_loop E iter = (omap (peerAddrInfo E) iter, false).
Proof.
  induction 1 as [|res iter Hres _ IH]; [reflexivity|].
  cbn [contentrouter.readProviderResponses_loop omap list_omap].
  destruct res as [[Schema [id|] Addrs Protocols|Schema Bytes]|err];
    cbn [GetSchema peerAddrInfo nilPeer] in *.
  - destruct (String.eqb Schema (SchemaPeer E)); rewrite IH; reflexivity.
  - rewrite Hres. exact IH.
  - destruct (String.eqb Schema (SchemaPeer E)); exact IH.
  - exact IH.
Qed.

(** C2: for a sequence that mixes peer-address records, records of other
    schemas and items with an error, the channel returned by
    [FindProvidersAsync] receives exactly the peer-address records, in the
    order of the sequence, and is closed once, after the last item of the
    sequence (an item with an error is skipped and the items after it are
    still read); the iterator is released before that. *)
Theorem channel_receives_peer_records (c : contentrouter.contentRouter) (key : Cid)
        (numResults : Z) (iter : ResultIter Record_) :
  contentrouter.FindProviders (contentrouter.client c) key = inl iter ->
  Forall (fun res => nilPeer E res = false) iter ->
  contentrouter.readProviderResponses E iter
    = (map contentrouter.Op_Send (omap (peerAddrInfo E) iter)
         ++ [contentrouter.Op_IterClose; contentrouter.Op_ChanClose], false) /\
  contentrouter.async_chan (contentrouter.FindProvidersAsync E c key numResults)
    = map contentrouter.Op_Send (omap (peerAddrInfo E) iter)
        ++ [contentrouter.Op_IterClose; contentrouter.Op_ChanClose] /\
  contentrouter.async_panicked (contentrouter.FindProvidersAsync E c key numResults) = false.
Proof.
  intros Hfind Hiter.
  assert (Hread : contentrouter.readProviderResponses E iter
                  = (map contentrouter.Op_Send (omap (peerAddrInfo E) iter)
                       ++ [contentrouter.Op_IterClose; contentrouter.Op_ChanClose], false)).
  { unfold contentrouter.readProviderResponses.
    rewrite readProviderResponses_loop_spec by exact Hiter. reflexivity. }
  split; [exact Hread|].
  unfold contentrouter.FindProvidersAsync. rewrite Hfind, Hread. split; reflexivity.
Qed.

(** C10: [FindProvidersAsync] does not use [numResults]: two calls that
    differ in it only make the same call on the client, a [FindProviders]
    with the key and no limit, and deliver the same values in the same order
    on their channels. *)
Theorem numResults_is_ignored (c : contentrouter.contentRouter) (key : Cid)
        (numResults numResults' : Z) :
  contentrouter.FindProvidersAsync E c key numResults
    = contentrouter.FindProvidersAsync E c key numResults' /\
  contentrouter.async_calls (contentrouter.FindProvidersAsync E c key numResults)
    = [contentrouter.Call_FindProviders key].
Proof.
  split; [reflexivity|].
  unfold contentrouter.FindProvidersAsync.
  destruct (contentrouter.FindProviders (contentrouter.client c) key) as [iter|err];
    [|reflexivity].
  destruct (contentrouter.readProviderResponses E iter). reflexivity.
Qed.

End ContentRouterFacts.

(** * The theorems at the sample instance *)

Lemma invalid_record_not_stored_sample :
  let s := server.Handler sample.externals sample.backend [] in
  let r := sample.request "k52" sample.ipnsHeaders (sample.paddedRecord 16) in
  statusCode (server.putIPNSRecord sample.externals s (newResponseWriter true None) r).1 = 400 /\
  rw_body (server.putIPNSRecord sample.externals s (newResponseWriter true None) r).1
    = String.list_byte_of_string "provided record is invalid: record does not match name" /\
  (server.putIPNSRecord sample.externals s (newResponseWriter true None) r).2 = [].
Proof.
  intros s r.
  destruct (invalid_record_not_stored sample.externals s true None r
              (mkCid "k52") (mkName "k52") (sample.paddedRecord 16) (sample.paddedRecord 16)
              (errorString "record does not match name")
              eq_refl eq_refl eq_refl eq_refl eq_refl eq_refl)
    as (_ & Hstatus & Hbody & Hcalls).
  split; [exact Hstatus|]. split; [exact Hbody|exact Hcalls].
Defined.

Lemma oversize_body_is_cut_and_stored_sample :
  let s := server.Handler sample.externals sample.backend [] in
  let r := sample.request "k51" sample.ipnsHeaders (sample.paddedRecord (Z.to_nat 10240) ++ [x2a]) in
  length (body_data (server.req_Body r)) = Z.to_nat 10241 /\
  statusCode (server.putIPNSRecord sample.externals s (newResponseWriter true None) r).1 = 200 /\
  rw_body (server.putIPNSRecord sample.externals s (newResponseWriter true None) r).1 = [] /\
  (server.putIPNSRecord sample.externals s (newResponseWriter true None) r).2
    = [server.Call_ProvideIPNSRecord sample.externals (mkName "k51") (sample.paddedRecord (Z.to_nat 10240))].
Proof.
  intros s r. split; [vm_compute; reflexivity|].
  apply (oversize_body_is_cut_and_stored sample.externals s true None r
           (mkCid "k51") (mkName "k51") (sample.paddedRecord (Z.to_nat 10240))).
  - reflexivity.
  - reflexivity.
  - reflexivity.
  - vm_compute. reflexivity.
  - vm_compute. reflexivity.
  - vm_compute. reflexivity.
  - reflexivity.
Defined.

Lemma findProviders_negotiation_sample :
  let s := server.Handler sample.externals sample.backend [] in
  let w := newResponseWriter true None in
  server.findProviders sample.externals s w
    (sample.request "bafy1" [("Accept", ["text/html;q=0.9, application/x-ndjson"; "*/*"])] [])
  = negotiation.respond sample.externals s w (mkCid "bafy1") (negotiation.Streaming 0)
  /\
  statusCode (server.findProviders sample.externals s w
    (sample.request "bafy1" [("Accept", ["application/json, json"])] [])).1 = 400.
Proof.
  intros s w. split.
  - exact (proj1 (findProviders_negotiation sample.externals s true None
             (sample.request "bafy1"
                [("Accept", ["text/html;q=0.9, application/x-ndjson"; "*/*"])] [])
             (mkCid "bafy1") eq_refl)).
  - exact (proj1 (proj2 (findProviders_negotiation sample.externals s true None
             (sample.request "bafy1" [("Accept", ["application/json, json"])] [])
             (mkCid "bafy1") eq_refl)
             (errorString "unable to parse Accept header: mime: expected slash after first token")
             eq_refl)).
Defined.

Lemma bulk_lists_records_in_order_sample :
  let s := server.Handler sample.externals sample.backend [] in
  let w' := (server.findProviders sample.externals s (newResponseWriter true None)
               (sample.request "bafy1" [] [])).1 in
  statusCode w' = 200 /\
  rw_body w' = String.list_byte_of_string
    "{Providers:[{Schema:peer,ID:12D3KooWA},{Schema:bitswap},{Schema:peer,ID:12D3KooWB}]}".
Proof.
  intros s w'.
  destruct (bulk_lists_records_in_order sample.externals s true None
              (sample.request "bafy1" [] []) (mkCid "bafy1")
              [sample.peerA; sample.other; sample.peerB]
              (String.list_byte_of_string
                 "{Providers:[{Schema:peer,ID:12D3KooWA},{Schema:bitswap},{Schema:peer,ID:12D3KooWB}]}")
              eq_refl eq_refl eq_refl eq_refl eq_refl)
    as (Hstatus & _ & (response & _ & _ & Hbody) & _).
  split; [exact Hstatus|]. subst w'. vm_compute. reflexivity.
Defined.

Lemma bulk_error_aborts_with_500_sample :
  let w := newResponseWriter true None in
  let provIter := [ResultVal sample.peerA; ResultVal sample.other;
                   ResultErr (errorString "lookup timed out"); ResultVal sample.peerB] in
  rw_committed (server.findProvidersJSON sample.externals w provIter).1 = Some (500, ∅) /\
  rw_body (server.findProvidersJSON sample.externals w provIter).1
    = String.list_byte_of_string "delegate error on result 2: lookup timed out".
Proof.
  intros w provIter.
  destruct (bulk_error_aborts_with_500 sample.externals true None
              [sample.peerA; sample.other] (errorString "lookup timed out")
              [ResultVal sample.peerB] ltac:(vm_compute; reflexivity))
    as (_ & _ & Hstatus & Hbody).
  split; [exact Hstatus|exact Hbody].
Defined.

Lemma stream_ends_silently_at_error_sample :
  let w := newResponseWriter true (Some 4%nat) in
  let provIter := [ResultVal sample.peerA; ResultVal sample.other;
                   ResultErr (errorString "lookup timed out"); ResultVal sample.peerB] in
  rw_committed (server.findProvidersNDJSON sample.externals w provIter).1
    = Some (200, {[ "Content-Type" := ["application/x-ndjson"] ]}) /\
  rw_body (server.findProvidersNDJSON sample.externals w provIter).1
    = String.list_byte_of_string "{Schema:peer,ID:12D3KooWA}" ++ [x0a]
      ++ String.list_byte_of_string "{Schema:bitswap}" ++ [x0a].
Proof.
  intros w provIter.
  destruct (stream_ends_silently_at_error sample.externals true (Some 4%nat)
              [sample.peerA; sample.other]
              [String.list_byte_of_string "{Schema:peer,ID:12D3KooWA}";
               String.list_byte_of_string "{Schema:bitswap}"]
              (errorString "lookup timed out") [ResultVal sample.peerB])
    as (Hstatus & Hbody & _).
  - repeat constructor.
  - intros n Hn. injection Hn as <-. cbn. lia.
  - split; [exact Hstatus|exact Hbody].
Defined.

Lemma etag_is_sum_of_record_bytes_sample :
  let s := server.Handler sample.externals sample.backend [] in
  let etag (key : string) :=
    sentHeader (server.getIPNSRecord sample.externals s (newResponseWriter true None)
                  (sample.request key sample.ipnsHeaders [])).1 !! "Etag" in
  etag "k51abc" = Some ["5ipoo9hkg8"] /\ etag "k51abd" = Some ["5ipoo9hle9"] /\
  etag "k51abc" <> etag "k51abd".
Proof.
  intros s etag.
  destruct (etag_is_sum_of_record_bytes sample.externals s s true true None None
              (sample.request "k51abc" sample.ipnsHeaders [])
              (sample.request "k51abd" sample.ipnsHeaders [])
              (mkCid "k51abc") (mkCid "k51abd") (mkName "k51abc") (mkName "k51abd")
              (x0a :: String.list_byte_of_string "k51abc" ++ [x00; x2a])
              (x0a :: String.list_byte_of_string "k51abd" ++ [x00; x2a])
              (x0a :: String.list_byte_of_string "k51abc" ++ [x00; x2a])
              (x0a :: String.list_byte_of_string "k51abd" ++ [x00; x2a])
              eq_refl eq_refl eq_refl eq_refl eq_refl eq_refl eq_refl eq_refl eq_refl eq_refl)
    as (He1 & He2 & _ & Hne).
  split; [exact He1|]. split; [exact He2|].
  apply Hne. vm_compute. discriminate.
Defined.

Lemma channel_receives_peer_records_sample :
  let iter := [ResultVal sample.peerA; ResultVal sample.other;
               ResultErr (errorString "lookup timed out"); ResultVal sample.peerB] in
  let c := contentrouter.NewContentRoutingClient
             (contentrouter.mkClient (fun _ => inl iter)) [] in
  contentrouter.async_chan
    (contentrouter.FindProvidersAsync sample.externals c (mkCid "bafy1") 1)
  = [contentrouter.Op_Send (mkAddrInfo "12D3KooWA" [[x04; x7f]]);
     contentrouter.Op_Send (mkAddrInfo "12D3KooWB" []);
     contentrouter.Op_IterClose; contentrouter.Op_ChanClose].
Proof.
  intros iter c.
  destruct (channel_receives_peer_records sample.externals c (mkCid "bafy1") 1 iter eq_refl)
    as (_ & Hchan & _).
  - repeat constructor.
  - exact Hchan.
Defined.

(** ** The handlers run on sample requests *)

(** The bulk strategy on a sequence whose third item fails. *)
Example bulk_on_failing_backend :
  let w := (server.findProviders sample.externals
              (server.Handler sample.externals sample.failing [])
              (newResponseWriter true None)
              (sample.request "bafy1" [("Accept", ["application/json"])] [])).1 in
  (statusCode w, String.string_of_list_byte (rw_body w))
  = (500, "delegate error on result 2: lookup timed out").
Proof. intros w. vm_compute. reflexivity. Qed.

(** The streaming strategy on the same sequence, with both strategies
    acceptable to the client. *)
Example stream_on_failing_backend :
  let w := (server.findProviders sample.externals
              (server.Handler sample.externals sample.failing [])
              (newResponseWriter true None)
              (sample.request "bafy1" [("Accept", ["application/x-ndjson, */*"])] [])).1 in
  (statusCode w, rw_body w, rw_flushes w)
  = (200,
     String.list_byte_of_string "{Schema:peer,ID:12D3KooWA}" ++ [x0a]
       ++ String.list_byte_of_string "{Schema:bitswap}" ++ [x0a],
     [27%nat; 44%nat]).
Proof. intros w. vm_compute. reflexivity. Qed.

(** With streaming disabled the same request is served in bulk, with the bulk
    limit set by the option. *)
Example stream_disabled_falls_back_to_bulk :
  (server.findProviders sample.externals
     (server.Handler sample.externals sample.backend
        [server.WithStreamingResultsDisabled sample.externals;
         server.WithRecordsLimit sample.externals 5])
     (newResponseWriter true None)
     (sample.request "bafy1" [("Accept", ["application/x-ndjson, */*"])] [])).2
  = [server.Call_FindProviders sample.externals (mkCid "bafy1") 5;
     server.Call_Close sample.externals].
Proof. reflexivity. Qed.

(** A body one byte over the limit whose first bytes are no record: the
    answer names an invalid record, not a record that is too long. *)
Example oversize_body_reported_invalid :
  let w := (server.putIPNSRecord sample.externals
              (server.Handler sample.externals sample.backend [])
              (newResponseWriter true None)
              (sample.request "k51" sample.ipnsHeaders (repeat x2a (Z.to_nat 10241)))).1 in
  (statusCode w, String.string_of_list_byte (rw_body w))
  = (400, "provided record is invalid: record is malformed").
Proof. intros w. vm_compute. reflexivity. Qed.

(** A body that breaks off before the limit is the one case answered with
    [provided record is too long]. *)
Example broken_body_reported_too_long :
  let w := (server.putIPNSRecord sample.externals
              (server.Handler sample.externals sample.backend [])
              (newResponseWriter true None)
              (server.mkRequest "k51" (list_to_map sample.ipnsHeaders)
                 (mkBody (sample.paddedRecord 16)
                    (Some (errorString "unexpected EOF"))))).1 in
  (statusCode w, String.string_of_list_byte (rw_body w))
  = (400, "provided record is too long: unexpected EOF").
Proof. intros w. vm_compute. reflexivity. Qed.

(** A failed lookup gives a channel that is closed and empty. *)
Example failed_lookup_closes_channel :
  contentrouter.FindProvidersAsync sample.externals
    (contentrouter.NewContentRoutingClient
       (contentrouter.mkClient (fun _ => inr (errorString "connection refused"))) [])
    (mkCid "bafy1") 10
  = contentrouter.mkAsyncResult [contentrouter.Call_FindProviders (mkCid "bafy1")]
      [contentrouter.Op_ChanClose] false.
Proof. reflexivity. Qed.

(** * Further properties of package [server] *)

Section ResponseFacts.

Variable E : Externals.

Lemma length_list_byte_of_string (s : string) :
  length (String.list_byte_of_string s) = String.length s.
Proof.
  unfold String.list_byte_of_string.
  induction s as [|c s IH]; cbn; [reflexivity|]. rewrite <- IH. reflexivity.
Qed.

Lemma list_byte_of_string_substring (n : nat) (s : string) :
  String.list_byte_of_string (String.substring 0 n s) = take n (String.list_byte_of_string s).
Proof.
  unfold String.list_byte_of_string. revert n.
  induction s as [|c s IH]; intros [|n]; cbn; try reflexivity.
  rewrite IH. reflexivity.
Qed.

(** The body of an error response is the message cut to its first 1024
    bytes. *)
Lemma errorBody_take (cause : error) :
  errorBody cause = take 1024 (String.list_byte_of_string (Error cause)).
Proof.
  unfold errorBody.
  destruct (Nat.ltb_spec 1024 (String.length (Error cause))) as [Hlong|Hshort].
  - apply list_byte_of_string_substring.
  - rewrite take_ge; [reflexivity|]. rewrite length_list_byte_of_string. exact Hshort.
Qed.

(** X1: [writeErr] on the writer of a new request commits the status it is
    given and writes the first 1024 bytes of the cause's message and nothing
    else, so an error body is never longer than 1024 bytes and a message of at
    most 1024 bytes is sent whole; on a broken connection the body stays
    empty. *)
Theorem writeErr_body_at_most_1024 (flusher : bool) (budget : option nat)
        (method : string) (code : Z) (cause : error) :
  let w' := server.writeErr (newResponseWriter flusher budget) method code cause in
  let message := String.list_byte_of_string (Error cause) in
  rw_committed w' = Some (code, ∅) /\
  rw_body w' = (if accepts budget then take 1024 message else []) /\
  (length (rw_body w') <= 1024)%nat /\
  ((String.length (Error cause) <= 1024)%nat ->
   rw_body w' = if accepts budget then message else []).
Proof.
  intros w' message. subst w' message.
  rewrite writeErr_new. cbn [rw_committed rw_body]. rewrite errorBody_take.
  split; [reflexivity|]. split; [reflexivity|]. split.
  - destruct (accepts budget); [rewrite length_take; lia | cbn; lia].
  - intros Hshort. rewrite take_ge; [reflexivity|].
    rewrite length_list_byte_of_string. exact Hshort.
Qed.

(** A write on a committed response either fails and changes nothing, or
    appends to the body. *)
Lemma Write_committed_cases (w : ResponseWriter) (b : list byte) (c : Z * Header) :
  rw_committed w = Some c ->
  (rw_budget w = Some O /\ exists e, Write w b = (w, Some e)) \/
  (accepts (rw_budget w) = true /\
   Write w b =
   ({| rw_header := rw_header w; rw_committed := Some c; rw_body := rw_body w ++ b;
       rw_flushes := rw_flushes w; rw_flusher := rw_flusher w;
       rw_budget := Nat.pred <$> rw_budget w |}, None)).
Proof.
  intros Hc. destruct (accepts (rw_budget w)) eqn:Hb.
  - right. split; [reflexivity|]. apply Write_committed; assumption.
  - left. destruct (rw_budget w) as [[|n]|] eqn:Hbudget; try discriminate Hb.
    split; [reflexivity|]. eexists. unfold Write, WriteHeader. rewrite Hc, Hbudget.
    reflexivity.
Qed.

Lemma Flush_committed (w : ResponseWriter) (c : Z * Header) :
  rw_committed w = Some c ->
  Flush w =
  {| rw_header := rw_header w; rw_committed := Some c; rw_body := rw_body w;
     rw_flushes := if rw_flusher w then rw_flushes w ++ [length (rw_body w)]
                   else rw_flushes w;
     rw_flusher := rw_flusher w; rw_budget := rw_budget w |}.
Proof.
  intros Hc. unfold Flush, WriteHeader. rewrite Hc.
  destruct w as [h cm bd fl fr bu]. cbn in *. subst cm. destruct fr; reflexivity.
Qed.

(** The streaming loop on any connection: the status line is left alone and
    what is added to the body is a prefix of the lines of the sequence. *)
Lemma findProvidersNDJSON_loop_prefix (provIter : ResultIter Record_) :
  forall (w : ResponseWriter) (c : Z * Header),
    rw_committed w = Some c ->
    rw_committed (server.findProvidersNDJSON_loop E w provIter) = Some c /\
    exists written : list byte,
      rw_body (server.findProvidersNDJSON_loop E w provIter) = rw_body w ++ written /\
      written `prefix_of` ndjsonBody (ndjsonLines E provIter).
Proof.
  induction provIter as [|[v|err] provIter IH]; intros w c Hc;
    cbn [server.findProvidersNDJSON_loop ndjsonLines].
  - split; [exact Hc|]. exists []. rewrite app_nil_r. split; [reflexivity|apply prefix_nil].
  - destruct (MarshalJSONBytes E (any_Record v)) as [b|e].
    2:{ split; [exact Hc|]. exists []. rewrite app_nil_r.
        split; [reflexivity|apply prefix_nil]. }
    destruct (Write_committed_cases w b c Hc) as [[_ [e ->]]|[_ ->]].
    { split; [exact Hc|]. exists []. rewrite app_nil_r.
      split; [reflexivity|apply prefix_nil]. }
    match goal with |- context [Write ?w1 [x0a]] =>
      destruct (Write_committed_cases w1 [x0a] c eq_refl) as [[_ [e ->]]|[_ ->]]
    end.
    { cbn [rw_committed rw_body]. split; [reflexivity|]. exists b.
      split; [reflexivity|]. unfold ndjsonBody. cbn [map concat].
      rewrite <- app_assoc. apply prefix_app_r. reflexivity. }
    cbn [rw_header rw_committed rw_body rw_flushes rw_flusher rw_budget].
    match goal with |- context [Flush ?w2] =>
      rewrite (Flush_committed w2 c eq_refl)
    end.
    cbn [rw_header rw_committed rw_body rw_flushes rw_flusher rw_budget].
    match goal with |- context [server.findProvidersNDJSON_loop E ?w3 _] =>
      destruct (IH w3 c eq_refl) as [IHc [written [IHb IHp]]]
    end.
    split; [exact IHc|]. exists (b ++ [x0a] ++ written).
    split.
    + rewrite IHb. cbn [rw_body]. rewrite <- !app_assoc. reflexivity.
    + unfold ndjsonBody. cbn [map concat]. rewrite <- app_assoc.
      apply prefix_app. apply prefix_app. exact IHp.
  - split; [exact Hc|]. exists []. rewrite app_nil_r. split; [reflexivity|apply prefix_nil].
Qed.

(** X2: the streaming strategy, on any sequence and any connection, answers
    with status 200 and the streaming content type, releases the sequence,
    and its body is a prefix of the line-delimited rendering of the values
    that come before the first error item or the first value that fails to
    marshal: a failure of any kind only cuts the stream short. *)
Theorem stream_body_is_prefix_of_lines (flusher : bool) (budget : option nat)
        (provIter : ResultIter Record_) :
  let w' := (server.findProvidersNDJSON E (newResponseWriter flusher budget) provIter).1 in
  rw_committed w' = Some (200, {[ "Content-Type" := [server.mediaTypeNDJSON] ]}) /\
  rw_body w' `prefix_of` ndjsonBody (ndjsonLines E provIter) /\
  (server.findProvidersNDJSON E (newResponseWriter flusher budget) provIter).2
    = [server.Call_Close E].
Proof.
  intros w'. subst w'. unfold server.findProvidersNDJSON. cbn [fst snd].
  destruct (findProvidersNDJSON_loop_prefix provIter
              (WriteHeader (w_Header_Set (newResponseWriter flusher budget) "Content-Type"
                              server.mediaTypeNDJSON) StatusOK)
              (200, {[ "Content-Type" := [server.mediaTypeNDJSON] ]}) eq_refl)
    as [Hc [written [Hb Hp]]].
  split; [exact Hc|]. split; [|reflexivity].
  rewrite Hb. exact Hp.
Qed.

(** The streaming loop on a connection that never fails. *)
Lemma findProvidersNDJSON_loop_healthy (provIter : ResultIter Record_) :
  forall (w : ResponseWriter) (c : Z * Header),
    rw_committed w = Some c -> rw_budget w = None ->
    rw_body (server.findProvidersNDJSON_loop E w provIter)
      = rw_body w ++ ndjsonBody (ndjsonLines E provIter) /\
    rw_flushes (server.findProvidersNDJSON_loop E w provIter)
      = rw_flushes w ++ (if rw_flusher w
                         then lineEnds (length (rw_body w)) (ndjsonLines E provIter)
                         else []).
Proof.
  induction provIter as [|[v|err] provIter IH]; intros w c Hc Hbudget;
    cbn [server.findProvidersNDJSON_loop ndjsonLines].
  - cbn. rewrite !app_nil_r. destruct (rw_flusher w); rewrite ?app_nil_r; auto.
  - destruct (MarshalJSONBytes E (any_Record v)) as [b|e].
    2:{ cbn. rewrite !app_nil_r. destruct (rw_flusher w); rewrite ?app_nil_r; auto. }
    rewrite (Write_committed w b c Hc) by (rewrite Hbudget; reflexivity).
    rewrite Write_committed with (c := c);
      [|reflexivity|cbn [rw_budget]; rewrite Hbudget; reflexivity].
    cbn [rw_header rw_committed rw_body rw_flushes rw_flusher rw_budget].
    match goal with |- context [Flush ?w2] =>
      rewrite (Flush_committed w2 c eq_refl)
    end.
    cbn [rw_header rw_committed rw_body rw_flushes rw_flusher rw_budget].
    match goal with |- context [server.findProvidersNDJSON_loop E ?w3 _] =>
      destruct (IH w3 c eq_refl) as [IHb IHf]
    end.
    { cbn [rw_budget]. rewrite Hbudget. reflexivity. }
    rewrite IHb, IHf. cbn [rw_body rw_flushes rw_flusher].
    unfold ndjsonBody. cbn [map concat lineEnds]. split.
    + rewrite <- !app_assoc. reflexivity.
    + destruct (rw_flusher w); [|rewrite !app_nil_r; reflexivity].
      rewrite <- app_assoc. cbn [app].
      rewrite !length_app. cbn [length].
      replace (length (rw_body w) + length b + 1)%nat
        with (length (rw_body w) + (length b + 1))%nat by lia.
      reflexivity.
  - cbn. rewrite !app_nil_r. destruct (rw_flusher w); rewrite ?app_nil_r; auto.
Qed.

(** X3: on a connection that never fails, the streaming strategy writes
    every line of the sequence, up to the first error item or value that
    fails to marshal, and a writer that can flush is flushed at the end of
    each line, before the next item is requested. *)
Theorem stream_writes_and_flushes_each_line (flusher : bool)
        (provIter : ResultIter Record_) :
  let w' := (server.findProvidersNDJSON E (newResponseWriter flusher None) provIter).1 in
  rw_body w' = ndjsonBody (ndjsonLines E provIter) /\
  rw_flushes w' = (if flusher then lineEnds 0 (ndjsonLines E provIter) else []).
Proof.
  intros w'. subst w'. unfold server.findProvidersNDJSON. cbn [fst].
  destruct (findProvidersNDJSON_loop_healthy provIter
              (WriteHeader (w_Header_Set (newResponseWriter flusher None) "Content-Type"
                              server.mediaTypeNDJSON) StatusOK)
              (200, {[ "Content-Type" := [server.mediaTypeNDJSON] ]}) eq_refl eq_refl)
    as [Hb Hf].
  rewrite Hb, Hf. split; reflexivity.
Qed.

End ResponseFacts.

Section DiscoveryFacts.

Variable E : Externals.

(** [writeErr] on a writer whose headers are set but not yet sent. *)
Lemma writeErr_uncommitted (w : ResponseWriter) (method : string) (code : Z)
      (cause : error) :
  rw_committed w = None ->
  rw_committed (server.writeErr w method code cause) = Some (code, rw_header w) /\
  rw_body (server.writeErr w method code cause)
    = rw_body w ++ (if accepts (rw_budget w) then errorBody cause else []).
Proof.
  intros Hc. unfold server.writeErr, Write, WriteHeader, errorBody. rewrite Hc.
  cbn [rw_committed rw_budget rw_header rw_body].
  destruct (rw_budget w) as [[|n]|]; cbn; rewrite ?app_nil_r; auto.
Qed.

Lemma findProvidersJSON_calls (w : ResponseWriter) (provIter : ResultIter Record_) :
  (server.findProvidersJSON E w provIter).2 = [server.Call_Close E].
Proof.
  unfold server.findProvidersJSON.
  destruct (server.findProvidersJSON_loop provIter [] 0) as [providers|[i err]];
    reflexivity.
Qed.

(** Once the strategy and the limit are chosen: a failed lookup is answered
    with 500 and nothing is released; a sequence is handed to the strategy,
    which releases it. *)
Lemma findProviders_lookup (s : server.server E) (flusher : bool) (budget : option nat)
      (cid : Cid) (h : server.handlerFunc_t E) (limit : Z) :
  (forall w it, (h w it).2 = [server.Call_Close E]) ->
  let res :=
    match server.FindProviders E (server.svc E s) cid limit with
    | inl provIter =>
        let '(w, calls) := h (newResponseWriter flusher budget) provIter in
        (w, server.Call_FindProviders E cid limit :: calls)
    | inr err =>
        (server.writeErr (newResponseWriter flusher budget) "FindProviders"
           StatusInternalServerError (Errorf_w "delegate error: " err),
         [server.Call_FindProviders E cid limit])
    end in
  (exists err : error,
      server.FindProviders E (server.svc E s) cid limit = inr err /\
      res.2 = [server.Call_FindProviders E cid limit] /\
      statusCode res.1 = 500) \/
  (exists provIter : ResultIter Record_,
      server.FindProviders E (server.svc E s) cid limit = inl provIter /\
      res.2 = [server.Call_FindProviders E cid limit; server.Call_Close E]).
Proof.
  intros Hh res. subst res.
  destruct (server.FindProviders E (server.svc E s) cid limit) as [provIter|err].
  - right. exists provIter. split; [reflexivity|].
    specialize (Hh (newResponseWriter flusher budget) provIter).
    destruct (h (newResponseWriter flusher budget) provIter) as [w calls].
    cbn [snd] in *. subst calls. reflexivity.
  - left. exists err. split; [reflexivity|]. cbn [fst snd].
    rewrite writeErr_new_statusCode. auto.
Qed.

(** X4: whatever the request, the discovery handler asks the backend at most
    once.  Either it answers 400 without any backend call; or the lookup
    fails, the answer is 500 and there is no sequence to release; or the
    lookup gives a sequence, which is released exactly once, after the lookup.
    The limit passed is the bulk limit or the streaming limit of the
    server. *)
Theorem findProviders_releases_sequence_once (s : server.server E) (flusher : bool)
        (budget : option nat) (httpReq : server.Request) :
  let res := server.findProviders E s (newResponseWriter flusher budget) httpReq in
  (res.2 = [] /\ statusCode res.1 = 400) \/
  exists (cid : Cid) (limit : Z),
    cid_Decode E (server.vars_cid httpReq) = inl cid /\
    (limit = server.recordsLimit E s \/ limit = server.streamingRecordsLimit E s) /\
    ((exists err : error,
         server.FindProviders E (server.svc E s) cid limit = inr err /\
         res.2 = [server.Call_FindProviders E cid limit] /\
         statusCode res.1 = 500) \/
     (exists provIter : ResultIter Record_,
         server.FindProviders E (server.svc E s) cid limit = inl provIter /\
         res.2 = [server.Call_FindProviders E cid limit; server.Call_Close E])).
Proof.
  intros res. subst res. unfold server.findProviders.
  destruct (cid_Decode E (server.vars_cid httpReq)) as [cid|err] eqn:Hkey.
  2:{ left. cbn [fst snd]. rewrite writeErr_new_statusCode. auto. }
  cbv zeta.
  destruct (length (Header_Values (server.req_Header httpReq) "Accept") =? 0)%nat.
  { right. exists cid, (server.recordsLimit E s). split; [reflexivity|]. split; [auto|].
    apply findProviders_lookup. apply findProvidersJSON_calls. }
  destruct (server.findProviders_acceptHeaders E _ (false, false))
    as [[supportsJSON supportsNDJSON]|err].
  2:{ left. cbn [fst snd]. rewrite writeErr_new_statusCode. auto. }
  destruct (supportsNDJSON && negb (server.disableNDJSON E s)).
  { right. exists cid, (server.streamingRecordsLimit E s).
    split; [reflexivity|]. split; [auto|].
    apply findProviders_lookup. reflexivity. }
  destruct supportsJSON.
  { right. exists cid, (server.recordsLimit E s). split; [reflexivity|]. split; [auto|].
    apply findProviders_lookup. apply findProvidersJSON_calls. }
  left. cbn [fst snd]. rewrite writeErr_new_statusCode. auto.
Qed.

(** X5: in the bulk strategy, when the collected list fails to marshal the
    answer is a 500 whose body is [marshaling response: ] followed by the
    error; the JSON content type, added before marshalling, is sent with
    it. *)
Theorem bulk_marshal_failure_is_500 (flusher : bool) (budget : option nat)
        (records : list Record_) (err : error) :
  MarshalJSONBytes E (any_ProvidersResponse (mkProvidersResponse records)) = inr err ->
  let w' := (server.findProvidersJSON E (newResponseWriter flusher budget)
               (map ResultVal records)).1 in
  rw_committed w' = Some (500, {[ "Content-Type" := [server.mediaTypeJSON] ]}) /\
  rw_body w' = (if accepts budget
                then errorBody (errorString ("marshaling response: " +:+ Error err))
                else []).
Proof.
  intros Hjson w'. subst w'. unfold server.findProvidersJSON.
  rewrite findProvidersJSON_loop_values. cbn [app fst].
  unfold server.writeJSONResult. rewrite Hjson.
  match goal with |- context [server.writeErr ?w ?m ?c ?e] =>
    destruct (writeErr_uncommitted w m c e eq_refl) as [Hc Hb]
  end.
  rewrite Hc, Hb. split; reflexivity.
Qed.

End DiscoveryFacts.

Section OrderFacts.

Variable E : Externals.

Lemma malformed_None (toks : list string) :
  negotiation.malformed E toks = None <->
  Forall (fun tok => (ParseMediaType E tok).2 = None) toks.
Proof.
  induction toks as [|tok toks IH]; cbn [negotiation.malformed].
  - split; [constructor|reflexivity].
  - destruct (ParseMediaType E tok).2 as [err|] eqn:Htok.
    + split; [discriminate|]. intros H. inversion H; subst. congruence.
    + rewrite IH. split; [intros H; constructor; assumption|].
      intros H. inversion H; assumption.
Qed.

Lemma lists_Permutation (a b : list string) (mediaType : string) :
  a ≡ₚ b -> negotiation.lists E a mediaType = negotiation.lists E b mediaType.
Proof.
  unfold negotiation.lists.
  induction 1 as [|x a b _ IH|x y a|a b c _ IH1 _ IH2]; cbn [existsb].
  - reflexivity.
  - rewrite IH. reflexivity.
  - rewrite !orb_assoc. f_equal. apply orb_comm.
  - congruence.
Qed.

Lemma tokens_Permutation (hs hs' : list string) :
  hs ≡ₚ hs' -> negotiation.tokens hs ≡ₚ negotiation.tokens hs'.
Proof.
  unfold negotiation.tokens.
  induction 1 as [|x a b _ IH|x y a|a b c _ IH1 _ IH2]; cbn [map concat].
  - reflexivity.
  - rewrite IH. reflexivity.
  - rewrite !app_assoc. f_equiv. apply Permutation_app_comm.
  - etransitivity; eassumption.
Qed.

(** X6: negotiation does not depend on the order of the [Accept] headers.
    Two requests for the same key whose [Accept] values are a permutation of
    each other, all their tokens being well-formed media types, get the same
    answer: the strategy is chosen by what is listed, never by where. *)
Theorem negotiation_ignores_header_order (s : server.server E) (w : ResponseWriter)
        (r1 r2 : server.Request) :
  server.vars_cid r1 = server.vars_cid r2 ->
  Header_Values (server.req_Header r1) "Accept"
    ≡ₚ Header_Values (server.req_Header r2) "Accept" ->
  Forall (fun tok => (ParseMediaType E tok).2 = None)
         (negotiation.tokens (Header_Values (server.req_Header r1) "Accept")) ->
  server.findProviders E s w r1 = server.findProviders E s w r2.
Proof.
  intros Hkey Hperm Htoks.
  pose proof (tokens_Permutation _ _ Hperm) as Hp.
  assert (Htoks2 : Forall (fun tok => (ParseMediaType E tok).2 = None)
                     (negotiation.tokens (Header_Values (server.req_Header r2) "Accept"))).
  { rewrite <- Hp. exact Htoks. }
  apply malformed_None in Htoks. apply malformed_None in Htoks2.
  unfold server.findProviders. rewrite <- Hkey.
  destruct (cid_Decode E (server.vars_cid r1)) as [cid|err]; [|reflexivity].
  cbv zeta. rewrite <- (Permutation_length Hperm).
  rewrite !findProviders_acceptHeaders_spec. cbv zeta.
  rewrite Htoks, Htoks2.
  rewrite <- !(lists_Permutation _ _ _ Hp). reflexivity.
Qed.

End OrderFacts.

Section ConfigFacts.

Variable E : Externals.

Lemma default_last_cons {A : Type} (d x : A) (l : list A) :
  default d (last (x :: l)) = default x (last l).
Proof. rewrite last_cons. destruct (last l); reflexivity. Qed.

Lemma Handler_fold (l : list config.setting) :
  forall s0 : server.server E,
    fold_left (fun server opt => opt server) (map (config.option_of E) l) s0
    = server.mkServer E (server.svc E s0)
        (server.disableNDJSON E s0 || existsb config.disables l)
        (default (server.recordsLimit E s0) (last (omap config.recordsLimit_of l)))
        (default (server.streamingRecordsLimit E s0)
                 (last (omap config.streamingRecordsLimit_of l))).
Proof.
  induction l as [|o l IH]; intros s0; cbn [map fold_left existsb omap list_omap].
  - rewrite orb_false_r. destruct s0; reflexivity.
  - rewrite IH. destruct o as [|limit|limit];
      cbn [config.option_of config.disables config.recordsLimit_of
           config.streamingRecordsLimit_of];
      unfold server.WithStreamingResultsDisabled, server.WithRecordsLimit,
        server.WithStreamingRecordsLimit;
      cbn [server.svc server.disableNDJSON server.recordsLimit server.streamingRecordsLimit];
      rewrite ?default_last_cons, ?orb_true_r, ?orb_false_r; reflexivity.
Qed.

(** X7: the server that [Handler] configures from a list of options keeps
    the backend it is given; streaming is disabled exactly when
    [WithStreamingResultsDisabled] is among the options; the bulk limit is that
    of the last [WithRecordsLimit], 20 without one; the streaming limit is that
    of the last [WithStreamingRecordsLimit], 0 (unbounded) without one.  Options
    for different settings do not disturb each other. *)
Theorem Handler_settings (svc : server.ContentRouter E) (l : list config.setting) :
  server.Handler E svc (map (config.option_of E) l)
  = server.mkServer E svc
      (existsb config.disables l)
      (default 20 (last (omap config.recordsLimit_of l)))
      (default 0 (last (omap config.streamingRecordsLimit_of l))).
Proof. unfold server.Handler. rewrite Handler_fold. reflexivity. Qed.

Lemma NewContentRoutingClient_fold (l : list config.budget) :
  forall c0 : contentrouter.contentRouter,
    fold_left (fun cr opt => opt cr) (map config.client_option_of l) c0
    = contentrouter.mkContentRouter (contentrouter.client c0)
        (default (contentrouter.maxProvideConcurrency c0) (last (omap config.concurrency_of l)))
        (default (contentrouter.maxProvideBatchSize c0) (last (omap config.batchSize_of l))).
Proof.
  induction l as [|o l IH]; intros c0; cbn [map fold_left omap list_omap].
  - destruct c0; reflexivity.
  - rewrite IH. destruct o as [max|max];
      cbn [config.client_option_of config.concurrency_of config.batchSize_of];
      unfold contentrouter.WithMaxProvideConcurrency, contentrouter.WithMaxProvideBatchSize;
      cbn [contentrouter.client contentrouter.maxProvideConcurrency
           contentrouter.maxProvideBatchSize];
      rewrite ?default_last_cons; reflexivity.
Qed.

(** X8: the router that [NewContentRoutingClient] configures keeps the
    client it is given; its concurrency budget is that of the last
    [WithMaxProvideConcurrency], 5 without one, and its batch budget that of
    the last [WithMaxProvideBatchSize], 100 without one; and whatever the
    budgets, [Provide] is not supported. *)
Theorem NewContentRoutingClient_settings (c : contentrouter.Client)
        (l : list config.budget) (key : Cid) (announce : bool) :
  contentrouter.NewContentRoutingClient c (map config.client_option_of l)
  = contentrouter.mkContentRouter c
      (default 5 (last (omap config.concurrency_of l)))
      (default 100 (last (omap config.batchSize_of l))) /\
  contentrouter.Provide
    (contentrouter.NewContentRoutingClient c (map config.client_option_of l)) key announce
  = Some contentrouter.ErrNotSupported.
Proof.
  unfold contentrouter.NewContentRoutingClient. rewrite NewContentRoutingClient_fold.
  split; reflexivity.
Qed.

End ConfigFacts.

Section RecordFacts.

Variable E : Externals.

(** X9: the outcomes of a record GET, for every request.  Without the record
    media type in [Accept] the answer is 406; with a key that does not decode,
    or that names no peer, it is 400; in both cases the backend is not asked.
    Otherwise the backend is asked once, for the name derived from the key: a
    failed lookup and a record that fails to marshal give 500, and a record
    that marshals gives 200 with the marshalled bytes as body. *)
Theorem getIPNSRecord_outcomes (s : server.server E) (flusher : bool)
        (budget : option nat) (r : server.Request) :
  let res := server.getIPNSRecord E s (newResponseWriter flusher budget) r in
  let accept := Contains (Header_Get (server.req_Header r) "Accept") server.mediaTypeIPNSRecord in
  (accept = false /\ statusCode res.1 = 406 /\ res.2 = []) \/
  (accept = true /\ statusCode res.1 = 400 /\ res.2 = [] /\
   ((exists err, cid_Decode E (server.vars_cid r) = inr err) \/
    (exists cid err, cid_Decode E (server.vars_cid r) = inl cid /\ NameFromCid E cid = inr err))) \/
  (exists (cid : Cid) (name : Name),
      accept = true /\ cid_Decode E (server.vars_cid r) = inl cid /\
      NameFromCid E cid = inl name /\
      res.2 = [server.Call_FindIPNSRecord E name] /\
      ((exists err, server.FindIPNSRecord E (server.svc E s) name = inr err /\
                    statusCode res.1 = 500) \/
       (exists record err,
           server.FindIPNSRecord E (server.svc E s) name = inl record /\
           MarshalRecord E record = inr err /\
           statusCode res.1 = 500 /\
           rw_body res.1 = (if accepts budget then errorBody err else [])) \/
       (exists record rawRecord,
           server.FindIPNSRecord E (server.svc E s) name = inl record /\
           MarshalRecord E record = inl rawRecord /\
           statusCode res.1 = 200 /\
           rw_body res.1 = (if accepts budget then rawRecord else [])))).
Proof.
  intros res accept. subst res accept. unfold server.getIPNSRecord.
  destruct (Contains (Header_Get (server.req_Header r) "Accept") server.mediaTypeIPNSRecord).
  2:{ left. cbn [negb fst snd]. rewrite writeErr_new_statusCode. auto. }
  right. cbn [negb].
  destruct (cid_Decode E (server.vars_cid r)) as [cid|err].
  2:{ left. cbn [fst snd]. rewrite writeErr_new_statusCode.
      do 3 (split; [reflexivity|]). left. exists err. reflexivity. }
  destruct (NameFromCid E cid) as [name|err] eqn:Hname.
  2:{ left. cbn [fst snd]. rewrite writeErr_new_statusCode.
      do 3 (split; [reflexivity|]). right. exists cid, err. auto. }
  right. exists cid, name. do 2 (split; [reflexivity|]). split; [exact Hname|].
  destruct (server.FindIPNSRecord E (server.svc E s) name) as [record|err].
  2:{ split; [reflexivity|]. left. exists err. cbn [fst].
      rewrite writeErr_new_statusCode. split; reflexivity. }
  destruct (MarshalRecord E record) as [rawRecord|err] eqn:Hraw.
  2:{ split; [reflexivity|]. right. left. exists record, err. cbn [fst].
      rewrite writeErr_new_statusCode, writeErr_new_body.
      split; [reflexivity|]. split; [exact Hraw|]. split; reflexivity. }
  split; [reflexivity|]. right. right. exists record, rawRecord. cbn [fst].
  split; [reflexivity|]. split; [exact Hraw|].
  unfold Write, WriteHeader, statusCode.
  destruct (Record_TTL E record); destruct budget as [[|n]|]; split; reflexivity.
Qed.

(** X10: the headers of a successful record GET.  When the TTL of the record
    can be read, [Cache-Control] is [max-age=] followed by the TTL in whole
    seconds; when it cannot, it is [max-age=60].  The content type is the
    record media type, and the three headers are sent with the status
    line. *)
Theorem getIPNSRecord_headers (s : server.server E) (flusher : bool)
        (budget : option nat) (r : server.Request)
        (cid : Cid) (name : Name) (record : ipns_Record E) (rawRecord : list byte) :
  Contains (Header_Get (server.req_Header r) "Accept") server.mediaTypeIPNSRecord = true ->
  cid_Decode E (server.vars_cid r) = inl cid ->
  NameFromCid E cid = inl name ->
  server.FindIPNSRecord E (server.svc E s) name = inl record ->
  MarshalRecord E record = inl rawRecord ->
  let w' := (server.getIPNSRecord E s (newResponseWriter flusher budget) r).1 in
  let maxAge :=
    match Record_TTL E record with
    | inl ttl => "max-age=" +:+ FormatInt10 (Duration_Seconds E ttl)
    | inr _ => "max-age=60"
    end in
  rw_committed w'
  = Some (200, <["Content-Type" := [server.mediaTypeIPNSRecord]]>
                 (<["Etag" := [FormatUint (Sum64 E rawRecord) 32]]>
                    {[ "Cache-Control" := [maxAge] ]})) /\
  sentHeader w' !! "Cache-Control" = Some [maxAge] /\
  sentHeader w' !! "Content-Type" = Some [server.mediaTypeIPNSRecord].
Proof.
  intros Haccept Hkey Hname Hfind Hraw w' maxAge. subst w' maxAge.
  unfold server.getIPNSRecord.
  rewrite Haccept, Hkey, Hname, Hfind, Hraw. cbn [negb fst].
  assert (Hc : forall w b, rw_committed w = None ->
                 rw_committed (Write w b).1 = Some (200, rw_header w)).
  { intros w b Hw. unfold Write, WriteHeader. rewrite Hw. cbn [rw_budget].
    destruct (rw_budget w) as [[|n]|]; reflexivity. }
  destruct (Record_TTL E record) as [ttl|err];
    (split; [apply Hc; reflexivity|]);
    unfold sentHeader; rewrite Hc by reflexivity;
    unfold w_Header_Set, Header_Set; cbn [rw_header];
    (split; [rewrite !lookup_insert_ne by discriminate; apply lookup_insert_eq
            |apply lookup_insert_eq]).
Qed.

(** X11: the outcomes of a record PUT, for every request.  Either the
    backend is not called and the answer is 406 or 400; or the store is called
    exactly once, with the name derived from the key and a record that was
    decoded from the first [MaxRecordSize] bytes of the body at most, and that
    validates against that name.  The answer is then 200 with an empty body if
    the store accepts the record, and 500 if it fails.  No other backend
    method is called. *)
Theorem putIPNSRecord_outcomes (s : server.server E) (flusher : bool)
        (budget : option nat) (r : server.Request) :
  let res := server.putIPNSRecord E s (newResponseWriter flusher budget) r in
  (res.2 = [] /\ (statusCode res.1 = 406 \/ statusCode res.1 = 400)) \/
  (exists (cid : Cid) (name : Name) (record : ipns_Record E),
      Contains (Header_Get (server.req_Header r) "Content-Type")
               server.mediaTypeIPNSRecord = true /\
      cid_Decode E (server.vars_cid r) = inl cid /\
      NameFromCid E cid = inl name /\
      UnmarshalRecord E (take (Z.to_nat (MaxRecordSize E)) (body_data (server.req_Body r)))
        = inl record /\
      ValidateWithName E record name = None /\
      res.2 = [server.Call_ProvideIPNSRecord E name record] /\
      ((server.ProvideIPNSRecord E (server.svc E s) name record = None /\
        statusCode res.1 = 200 /\ rw_body res.1 = []) \/
       (exists err, server.ProvideIPNSRecord E (server.svc E s) name record = Some err /\
                    statusCode res.1 = 500))).
Proof.
  intros res. subst res. unfold server.putIPNSRecord.
  destruct (Contains (Header_Get (server.req_Header r) "Content-Type")
                     server.mediaTypeIPNSRecord).
  2:{ left. cbn [negb fst snd]. rewrite writeErr_new_statusCode. auto. }
  cbn [negb].
  destruct (cid_Decode E (server.vars_cid r)) as [cid|err].
  2:{ left. cbn [fst snd]. rewrite writeErr_new_statusCode. auto. }
  destruct (NameFromCid E cid) as [name|err] eqn:Hname.
  2:{ left. cbn [fst snd]. rewrite writeErr_new_statusCode. auto. }
  rewrite ReadAll_LimitReader.
  destruct (if Z.of_nat (length (body_data (server.req_Body r))) <? MaxRecordSize E
            then dropEOF (body_end (server.req_Body r)) else None) as [err|].
  { left. cbn [fst snd]. rewrite writeErr_new_statusCode. auto. }
  destruct (UnmarshalRecord E _) as [record|err] eqn:Hrec.
  2:{ left. cbn [fst snd]. rewrite writeErr_new_statusCode. auto. }
  destruct (ValidateWithName E record name) as [err|] eqn:Hval.
  { left. cbn [fst snd]. rewrite writeErr_new_statusCode. auto. }
  right. exists cid, name, record. do 5 (split; [reflexivity || assumption|]).
  destruct (server.ProvideIPNSRecord E (server.svc E s) name record) as [err|] eqn:Hstore.
  - split; [reflexivity|]. right. exists err. cbn [fst].
    rewrite writeErr_new_statusCode. split; reflexivity.
  - split; [reflexivity|]. left. repeat split; reflexivity.
Qed.

(** X12: a body of at most [MaxRecordSize] bytes whose stream ends normally
    is read whole.  When it decodes into a record that validates against the
    name, the store is called with that record; the answer is 200 with an
    empty body when the store returns no error, and 500 with
    [delegate error: ] followed by the store's error when it does. *)
Theorem putIPNSRecord_stores_whole_body (s : server.server E) (flusher : bool)
        (budget : option nat) (r : server.Request)
        (cid : Cid) (name : Name) (record : ipns_Record E) :
  Contains (Header_Get (server.req_Header r) "Content-Type") server.mediaTypeIPNSRecord = true ->
  cid_Decode E (server.vars_cid r) = inl cid ->
  NameFromCid E cid = inl name ->
  Z.of_nat (length (body_data (server.req_Body r))) <= MaxRecordSize E ->
  dropEOF (body_end (server.req_Body r)) = None ->
  UnmarshalRecord E (body_data (server.req_Body r)) = inl record ->
  ValidateWithName E record name = None ->
  let res := server.putIPNSRecord E s (newResponseWriter flusher budget) r in
  res.2 = [server.Call_ProvideIPNSRecord E name record] /\
  (server.ProvideIPNSRecord E (server.svc E s) name record = None ->
   rw_committed res.1 = Some (200, ∅) /\ rw_body res.1 = []) /\
  (forall err, server.ProvideIPNSRecord E (server.svc E s) name record = Some err ->
   rw_committed res.1 = Some (500, ∅) /\
   rw_body res.1 = (if accepts budget
                    then errorBody (errorString ("delegate error: " +:+ Error err))
                    else [])).
Proof.
  intros Hct Hkey Hname Hlen Hend Hrec Hval res. subst res.
  unfold server.putIPNSRecord.
  rewrite Hct, Hkey, Hname, ReadAll_LimitReader, Hend. cbn [negb].
  replace (if Z.of_nat (length (body_data (server.req_Body r))) <? MaxRecordSize E
           then None else None) with (@None error) by (case (_ <? _); reflexivity).
  rewrite take_ge by lia. rewrite Hrec, Hval.
  destruct (server.ProvideIPNSRecord E (server.svc E s) name record) as [err|];
    cbn [fst snd]; (split; [reflexivity|]); split; try discriminate.
  - intros err' [= <-]. rewrite writeErr_new. auto.
  - auto.
Qed.

End RecordFacts.

Section WorkerFacts.

Variable E : Externals.


(** X13: a peer record tagged with the peer schema whose identity is nil
    makes the worker panic at the dereference.  The peer-address records
    before it have been sent, nothing after it is, and the two deferred calls
    still release the iterator and close the channel. *)
Theorem nil_identity_panics_after_sending (pre rest : ResultIter Record_)
        (Schema : string) (Addrs : list types_Multiaddr) (Protocols : list string) :
  Forall (fun res => nilPeer E res = false) pre ->
  String.eqb Schema (SchemaPeer E) = true ->
  contentrouter.readProviderResponses E
    (pre ++ ResultVal (PeerRecord Schema None Addrs Protocols) :: rest)
  = (map contentrouter.Op_Send (omap (peerAddrInfo E) pre)
       ++ [contentrouter.Op_IterClose; contentrouter.Op_ChanClose], true).
Proof.
  intros Hpre Hschema. unfold contentrouter.readProviderResponses.
  assert (Hloop : contentrouter.readProviderResponses_loop E
                    (pre ++ ResultVal (PeerRecord Schema None Addrs Protocols) :: rest)
                  = (omap (peerAddrInfo E) pre, true)).
  { induction Hpre as [|res pre Hres _ IH];
      cbn [app contentrouter.readProviderResponses_loop omap list_omap].
    - cbn [GetSchema]. rewrite Hschema. reflexivity.
    - destruct res as [[S' [id|] A' P'|S' B']|err];
        cbn [GetSchema peerAddrInfo nilPeer] in *.
      + destruct (String.eqb S' (SchemaPeer E)); rewrite IH; reflexivity.
      + rewrite Hres. exact IH.
      + destruct (String.eqb S' (SchemaPeer E)); exact IH.
      + exact IH. }
  rewrite Hloop. reflexivity.
Qed.


(** X15: every call of [FindProvidersAsync] makes exactly one call on the
    client and returns a channel that is closed exactly once, as the last
    thing done to it.  When the lookup fails, nothing is sent before the close
    and no worker runs; the failure is not reported to the caller. *)
Theorem FindProvidersAsync_closes_channel_once (c : contentrouter.contentRouter)
        (key : Cid) (numResults : Z) :
  let res := contentrouter.FindProvidersAsync E c key numResults in
  contentrouter.async_calls res = [contentrouter.Call_FindProviders key] /\
  (exists ops : list contentrouter.Op,
      contentrouter.async_chan res = ops ++ [contentrouter.Op_ChanClose] /\
      contentrouter.Op_ChanClose ∉ ops) /\
  (forall err, contentrouter.FindProviders (contentrouter.client c) key = inr err ->
               contentrouter.async_chan res = [contentrouter.Op_ChanClose] /\
               contentrouter.async_panicked res = false).
Proof.
  intros res. subst res. unfold contentrouter.FindProvidersAsync.
  destruct (contentrouter.FindProviders (contentrouter.client c) key) as [iter|err].
  - unfold contentrouter.readProviderResponses.
    destruct (contentrouter.readProviderResponses_loop E iter) as [sent panicked].
    cbn [contentrouter.async_calls contentrouter.async_chan contentrouter.async_panicked].
    split; [reflexivity|]. split; [|discriminate].
    exists (map contentrouter.Op_Send sent ++ [contentrouter.Op_IterClose]).
    split; [rewrite <- app_assoc; reflexivity|].
    rewrite not_elem_of_app. split.
    + intros Hin. apply list_elem_of_fmap in Hin. destruct Hin as (v & Hv & _).
      discriminate Hv.
    + intros Hin. apply list_elem_of_singleton in Hin. discriminate Hin.
  - cbn [contentrouter.async_calls contentrouter.async_chan contentrouter.async_panicked].
    split; [reflexivity|]. split.
    + exists []. split; [reflexivity|]. apply not_elem_of_nil.
    + intros err' _. auto.
Qed.

End WorkerFacts.

Section SkipFacts.

Variable E : Externals.

(** X16: the worker skips every item that is no peer-address record: an
    item with an error, a record of another schema, a record that is no peer
    record.  Taking such an item out of the sequence changes nothing of what
    the worker does; in particular an error item does not end the stream. *)
Theorem worker_skips_other_items (pre rest : ResultIter Record_) (res : Result Record_) :
  peerAddrInfo E res = None ->
  nilPeer E res = false ->
  contentrouter.readProviderResponses E (pre ++ res :: rest)
  = contentrouter.readProviderResponses E (pre ++ rest).
Proof.
  intros Hnone Hnil. unfold contentrouter.readProviderResponses.
  assert (Hloop : contentrouter.readProviderResponses_loop E (pre ++ res :: rest)
                  = contentrouter.readProviderResponses_loop E (pre ++ rest)).
  { induction pre as [|x pre IH]; cbn [app contentrouter.readProviderResponses_loop].
    - destruct res as [[Schema [id|] Addrs Protocols|Schema Bytes]|err];
        cbn [GetSchema peerAddrInfo nilPeer] in *.
      + destruct (String.eqb Schema (SchemaPeer E)); [discriminate Hnone|reflexivity].
      + rewrite Hnil. reflexivity.
      + destruct (String.eqb Schema (SchemaPeer E)); reflexivity.
      + reflexivity.
    - rewrite IH. reflexivity. }
  rewrite Hloop. reflexivity.
Qed.

(** X17: the bulk strategy does not read past the first item with an
    error: whatever follows that item, the answer is the same. *)
Theorem bulk_stops_at_first_error (w : ResponseWriter) (items rest rest' : ResultIter Record_)
        (err : error) :
  server.findProvidersJSON E w (items ++ ResultErr err :: rest)
  = server.findProvidersJSON E w (items ++ ResultErr err :: rest').
Proof.
  unfold server.findProvidersJSON.
  assert (Hloop : forall providers i,
             server.findProvidersJSON_loop (items ++ ResultErr err :: rest) providers i
             = server.findProvidersJSON_loop (items ++ ResultErr err :: rest') providers i).
  { induction items as [|[v|e] items IH]; intros providers i;
      cbn [app server.findProvidersJSON_loop]; [reflexivity|apply IH|reflexivity]. }
  rewrite Hloop. reflexivity.
Qed.

End SkipFacts.

(** ** The further properties at the sample instances *)

Lemma bulk_marshal_failure_is_500_sample :
  let w' := (server.findProvidersJSON faulty.externals (newResponseWriter true None)
               [ResultVal sample.peerA; ResultVal sample.other]).1 in
  rw_committed w' = Some (500, {[ "Content-Type" := ["application/json"] ]}) /\
  rw_body w'
  = String.list_byte_of_string "marshaling response: json: unsupported value".
Proof.
  exact (bulk_marshal_failure_is_500 faulty.externals true None
           [sample.peerA; sample.other] (errorString "json: unsupported value") eq_refl).
Defined.

Lemma negotiation_ignores_header_order_sample :
  let s := server.Handler sample.externals sample.backend [] in
  let w := newResponseWriter true None in
  server.findProviders sample.externals s w
    (sample.request "bafy1" [("Accept", ["application/json"; "application/x-ndjson;q=0.5"])] [])
  = server.findProviders sample.externals s w
      (sample.request "bafy1" [("Accept", ["application/x-ndjson;q=0.5"; "application/json"])] []).
Proof.
  intros s w.
  apply (negotiation_ignores_header_order sample.externals s w
           (sample.request "bafy1"
              [("Accept", ["application/json"; "application/x-ndjson;q=0.5"])] [])
           (sample.request "bafy1"
              [("Accept", ["application/x-ndjson;q=0.5"; "application/json"])] [])).
  - reflexivity.
  - apply perm_swap.
  - repeat constructor.
Defined.

Lemma getIPNSRecord_headers_sample :
  let w' := (server.getIPNSRecord sample.externals
               (server.Handler sample.externals sample.backend [])
               (newResponseWriter true None)
               (sample.request "k51abc" sample.ipnsHeaders [])).1 in
  sentHeader w' !! "Cache-Control" = Some ["max-age=3600"] /\
  sentHeader w' !! "Content-Type" = Some ["application/vnd.ipfs.ipns-record"].
Proof.
  intros w'.
  destruct (getIPNSRecord_headers sample.externals
              (server.Handler sample.externals sample.backend []) true None
              (sample.request "k51abc" sample.ipnsHeaders [])
              (mkCid "k51abc") (mkName "k51abc")
              (x0a :: String.list_byte_of_string "k51abc" ++ [x00; x2a])
              (x0a :: String.list_byte_of_string "k51abc" ++ [x00; x2a])
              eq_refl eq_refl eq_refl eq_refl eq_refl)
    as (_ & Hcache & Htype).
  split; [exact Hcache|exact Htype].
Defined.

Lemma putIPNSRecord_stores_whole_body_sample :
  let res := server.putIPNSRecord sample.externals
               (server.Handler sample.externals sample.backend [])
               (newResponseWriter true None)
               (sample.request "k51" sample.ipnsHeaders
                  (sample.paddedRecord (Z.to_nat 10240))) in
  res.2 = [server.Call_ProvideIPNSRecord sample.externals (mkName "k51")
             (sample.paddedRecord (Z.to_nat 10240))] /\
  rw_committed res.1 = Some (200, ∅) /\ rw_body res.1 = [].
Proof.
  intros res.
  destruct (putIPNSRecord_stores_whole_body sample.externals
              (server.Handler sample.externals sample.backend []) true None
              (sample.request "k51" sample.ipnsHeaders (sample.paddedRecord (Z.to_nat 10240)))
              (mkCid "k51") (mkName "k51") (sample.paddedRecord (Z.to_nat 10240))
              eq_refl eq_refl eq_refl)
    as (Hcalls & Hok & _).
  - vm_compute. discriminate.
  - reflexivity.
  - vm_compute. reflexivity.
  - vm_compute. reflexivity.
  - split; [exact Hcalls|]. apply Hok. reflexivity.
Defined.

Lemma nil_identity_panics_after_sending_sample :
  contentrouter.readProviderResponses sample.externals
    [ResultVal sample.peerA; ResultErr (errorString "lookup timed out");
     ResultVal (PeerRecord "peer" None [] []); ResultVal sample.peerB]
  = ([contentrouter.Op_Send (mkAddrInfo "12D3KooWA" [[x04; x7f]]);
      contentrouter.Op_IterClose; contentrouter.Op_ChanClose], true).
Proof.
  apply (nil_identity_panics_after_sending sample.externals
           [ResultVal sample.peerA; ResultErr (errorString "lookup timed out")]
           [ResultVal sample.peerB] "peer" [] []).
  - repeat constructor.
  - reflexivity.
Defined.

Lemma worker_skips_other_items_sample :
  contentrouter.readProviderResponses sample.externals
    [ResultVal sample.peerA; ResultErr (errorString "lookup timed out"); ResultVal sample.peerB]
  = contentrouter.readProviderResponses sample.externals
      [ResultVal sample.peerA; ResultVal sample.peerB].
Proof.
  apply (worker_skips_other_items sample.externals [ResultVal sample.peerA]
           [ResultVal sample.peerB] (ResultErr (errorString "lookup timed out")));
    reflexivity.
Defined.

(** The fallback of [Cache-Control], at the instance whose records have no
    TTL. *)
Example Cache_Control_fallback :
  sentHeader (server.getIPNSRecord faulty.externals
                (server.Handler faulty.externals faulty.backend [])
                (newResponseWriter true None)
                (sample.request "k51abc" sample.ipnsHeaders [])).1 !! "Cache-Control"
  = Some ["max-age=60"].
Proof. reflexivity. Qed.
